(** * FaissIndexHNSWCagraBuilder: GPU-to-CPU index conversion and serialization

    A shallow embedding of
    [core/common/models/index_builder/faiss/faiss_index_hnsw_cagra_builder.py].

    The Python methods mutate shared objects (the identifier-mapping wrapper
    is reachable from two bundles), call into the faiss library and raise
    exceptions.  They are embedded in a state-and-exception monad over a
    store of Python objects; the faiss library is a record of oracles that
    decide, from the current store, whether a library call raises. *)

From Stdlib Require Import ZArith.
From stdpp Require Import gmap strings list fin_maps.

Local Open Scope string_scope.

(** ** Python values and exceptions *)

(** Modelled from the spec: [DataType] is imported from
    [core.common.models.index_build_parameters], which is not part of the
    sources at hand; the spec gives it as the enumeration {FLOAT, BINARY}. *)
Inductive DataType := FLOAT | BINARY.

(** The values a builder attribute can hold.  A dataclass does not check its
    annotations, so an attribute holds whatever the caller passed. *)
Inductive pyval :=
| VNone
| VBool (b : bool)
| VInt (z : Z)
| VStr (s : string)
| VDataType (d : DataType).

#[global] Instance DataType_eq_dec : EqDecision DataType.
Proof. solve_decision. Defined.

#[global] Instance pyval_eq_dec : EqDecision pyval.
Proof. solve_decision. Defined.

(** [a != b] for an enumeration member [b]: members compare by identity. *)
Definition py_ne (a b : pyval) : bool := bool_decide (a ≠ b).

(** Classes of the exceptions that the modelled code and the library raise.
    All of them derive from [Exception], so that [except Exception] catches
    every exception of the model; interrupts that derive from
    [BaseException] only ([KeyboardInterrupt], [SystemExit]) are not
    modelled.  [IOError] is Python 3's alias of [OSError], whose subclasses
    are listed after it. *)
Inductive exc_class :=
| PyException
| PyOSError
| PyFileNotFoundError
| PyPermissionError
| PyRuntimeError
| PyTypeError
| PyAttributeError
| PyMemoryError.

(** An exception object: its class, the text [str(e)] and [e.__cause__]. *)
Local Unset Elimination Schemes.
Inductive exc :=
| Exc (cls : exc_class) (text : string) (cause : option exc).
Local Set Elimination Schemes.

Definition exc_cls (e : exc) : exc_class := let 'Exc c _ _ := e in c.
Definition str (e : exc) : string := let 'Exc _ s _ := e in s.
Definition exc_cause (e : exc) : option exc := let 'Exc _ _ c := e in c.

(** [isinstance(e, IOError)] *)
Definition isinstance_IOError (e : exc) : bool :=
  match exc_cls e with
  | PyOSError | PyFileNotFoundError | PyPermissionError => true
  | _ => false
  end.

(** [raise Exception(msg) from e] builds this exception object. *)
Definition Exception_from (msg : string) (e : exc) : exc :=
  Exc PyException msg (Some e).

Inductive result (A : Type) :=
| Ok (a : A)
| Raise (e : exc).
Arguments Ok {A} a.
Arguments Raise {A} e.

(** ** The builder dataclass *)

Record FaissIndexHNSWCagraBuilder := {
  ef_search : pyval;
  ef_construction : pyval;
  base_level_only : pyval;
  vector_dtype : pyval
}.

(** The field defaults of the dataclass declaration. *)
Definition default_ef_search : pyval := VInt 100.
Definition default_ef_construction : pyval := VInt 100.
Definition default_base_level_only : pyval := VBool true.
Definition default_vector_dtype : pyval := VDataType FLOAT.

(** The keyword names accepted by the generated [__init__].  The base class
    [FaissCPUIndexBuilder] is not among the sources; following the spec it
    contributes no field. *)
Definition field_names : gset string :=
  {[ "ef_search"; "ef_construction"; "base_level_only"; "vector_dtype" ]}.

(** [cls()] *)
Definition cls_default : FaissIndexHNSWCagraBuilder :=
  {| ef_search := default_ef_search;
     ef_construction := default_ef_construction;
     base_level_only := default_base_level_only;
     vector_dtype := default_vector_dtype |}.

(** The [TypeError] of a call with a keyword the signature lacks.  The
    interpreter's text also names one offending keyword. *)
Definition unexpected_keyword : exc :=
  Exc PyTypeError
      "FaissIndexHNSWCagraBuilder.__init__() got an unexpected keyword argument"
      None.

(** [cls] called with the entries of a dict as keyword arguments: every
    keyword must be a parameter of [__init__]; a parameter that is not
    passed takes its default. *)
Definition cls_kwargs (kwargs : gmap string pyval)
  : result FaissIndexHNSWCagraBuilder :=
  if decide (dom kwargs ⊆ field_names) then
    Ok {| ef_search := default default_ef_search (kwargs !! "ef_search");
          ef_construction :=
            default default_ef_construction (kwargs !! "ef_construction");
          base_level_only :=
            default default_base_level_only (kwargs !! "base_level_only");
          vector_dtype :=
            default default_vector_dtype (kwargs !! "vector_dtype") |}
  else Raise unexpected_keyword.

(** [from_dict(cls, params)]: [not params] holds for [None] and for the
    empty dict. *)
Definition from_dict (params : option (gmap string pyval))
  : result FaissIndexHNSWCagraBuilder :=
  match params with
  | None => Ok cls_default
  | Some d => if decide (d = ∅) then Ok cls_default else cls_kwargs d
  end.

(** ** The object store *)

(** Object references. *)
Abbreviation loc := positive.

(** The two index families of faiss: [Index] and [IndexBinary]. *)
Inductive family := StandardFamily | BinaryFamily.

(** What the [index] attribute of an identifier-mapping wrapper
    ([IndexIDMap], [IndexBinaryIDMap]) points at. *)
Inductive index_ref :=
| GpuIndex (g : loc)
| CpuIndex (c : loc).

(** A CPU index object, [faiss.IndexHNSWCagra] or
    [faiss.IndexBinaryHNSWCagra], with the attributes the builder assigns and
    the GPU index whose graph [copyTo] has put into it. *)
Module IndexHNSWCagra.
Record t := make {
  index_family : family;
  efConstruction : pyval;
  efSearch : pyval;
  base_level_only : pyval;
  copied_from : option loc
}.
End IndexHNSWCagra.

(** Modelled from the spec: [FaissGpuBuildIndexOutput] is imported from
    [core.common.models.index_builder], which is not among the sources.  It
    is the spec's GPU bundle, with the two attributes that the builder reads
    and assigns; [released] records that [cleanup] has run, after which the
    spec counts the bundle as destroyed. *)
Module FaissGpuBuildIndexOutput.
Record t := make {
  gpu_index : option loc;
  index_id_map : option loc;
  released : bool
}.
End FaissGpuBuildIndexOutput.

(** Modelled from the spec: [FaissCpuBuildIndexOutput], imported from the
    same place, is the spec's CPU bundle; the builder constructs it with the
    keywords [cpu_index] and [index_id_map]. *)
Module FaissCpuBuildIndexOutput.
Record t := make {
  cpu_index : option loc;
  index_id_map : option loc;
  released : bool
}.
End FaissCpuBuildIndexOutput.

Module GpuOut := FaissGpuBuildIndexOutput.
Module CpuOut := FaissCpuBuildIndexOutput.

Inductive bundle_ref :=
| GpuBundle (b : loc)
| CpuBundle (b : loc).

(** The observable actions of a run, oldest first. *)
Inductive event :=
| EvNewIndex (fam : family) (c : loc)
| EvCopyTo (g c : loc)
| EvSetWrapperIndex (m : loc) (v : option index_ref)
| EvSetBundleWrapper (b : loc) (v : option loc)
| EvCleanup (b : bundle_ref)
| EvWrite (fam : family) (m : option loc) (path : string).

#[global] Instance family_eq_dec : EqDecision family.
Proof. solve_decision. Defined.
#[global] Instance index_ref_eq_dec : EqDecision index_ref.
Proof. solve_decision. Defined.
#[global] Instance bundle_ref_eq_dec : EqDecision bundle_ref.
Proof. solve_decision. Defined.
#[global] Instance event_eq_dec : EqDecision event.
Proof. solve_decision. Defined.

Record world := World {
  builders : gmap loc FaissIndexHNSWCagraBuilder;
  cpu_indexes : gmap loc IndexHNSWCagra.t;
  id_maps : gmap loc (option index_ref);
  gpu_outputs : gmap loc GpuOut.t;
  cpu_outputs : gmap loc CpuOut.t;
  files : gmap string (family * option loc);
  trace : list event
}.

Definition log (ev : event) (w : world) : world :=
  World (builders w) (cpu_indexes w) (id_maps w) (gpu_outputs w)
        (cpu_outputs w) (files w) (trace w ++ [ev]).

Definition put_cpu_index (c : loc) (i : IndexHNSWCagra.t) (w : world) : world :=
  World (builders w) (<[c := i]> (cpu_indexes w)) (id_maps w) (gpu_outputs w)
        (cpu_outputs w) (files w) (trace w).

Definition put_id_map (m : loc) (v : option index_ref) (w : world) : world :=
  World (builders w) (cpu_indexes w) (<[m := v]> (id_maps w)) (gpu_outputs w)
        (cpu_outputs w) (files w) (trace w).

Definition put_gpu_output (b : loc) (o : GpuOut.t) (w : world) : world :=
  World (builders w) (cpu_indexes w) (id_maps w) (<[b := o]> (gpu_outputs w))
        (cpu_outputs w) (files w) (trace w).

Definition put_cpu_output (b : loc) (o : CpuOut.t) (w : world) : world :=
  World (builders w) (cpu_indexes w) (id_maps w) (gpu_outputs w)
        (<[b := o]> (cpu_outputs w)) (files w) (trace w).

Definition put_file (path : string) (f : family * option loc) (w : world)
  : world :=
  World (builders w) (cpu_indexes w) (id_maps w) (gpu_outputs w)
        (cpu_outputs w) (<[path := f]> (files w)) (trace w).

(** The part of the trace that a run from [w] to [w'] has added. *)
Definition new_events (w w' : world) : list event :=
  drop (length (trace w)) (trace w').

(** How many times an action occurs in a trace. *)
Definition occurrences (ev : event) (tr : list event) : nat :=
  length (filter (λ x, x = ev) tr).

(** ** The faiss library and the bundles' [cleanup]

    Each oracle answers, in the store at the time of the call, with the
    exception the call raises, or with [None] when it returns. *)
Record faiss_env := {
  ctor_raises : family → world → option exc;
  setattr_raises : world → loc → string → pyval → option exc;
  copyTo_raises : world → loc → loc → option exc;
  set_index_raises : world → loc → option index_ref → option exc;
  cleanup_raises : world → bundle_ref → option exc;
  write_raises : family → world → option loc → string → option exc;
  (* the attribute values of a freshly constructed CPU index *)
  initial_efConstruction : pyval;
  initial_efSearch : pyval;
  initial_base_level_only : pyval
}.

(** ** Computations: a store and a result or a raised exception *)

Definition M (A : Type) : Type := world → result A * world.

#[global] Instance M_ret : MRet M := λ A a w, (Ok a, w).

#[global] Instance M_bind : MBind M := λ A B f m w,
  match m w with
  | (Ok a, w') => f a w'
  | (Raise e, w') => (Raise e, w')
  end.

Definition raise {A} (e : exc) : M A := λ w, (Raise e, w).

(** [try: body except Exception as e: handler e] *)
Definition try_except {A} (body : M A) (handler : exc → M A) : M A := λ w,
  match body w with
  | (Ok a, w') => (Ok a, w')
  | (Raise e, w') => handler e w'
  end.

(** A library call that may raise, as the oracle says. *)
Definition may_raise (oracle : world → option exc) : M unit := λ w,
  match oracle w with
  | Some e => (Raise e, w)
  | None => (Ok tt, w)
  end.

Definition modify (f : world → world) : M unit := λ w, (Ok tt, f w).

(** The [AttributeError] of an attribute access on an object without it. *)
Definition no_attribute (type_name attr : string) : exc :=
  Exc PyAttributeError
      ("'" ++ type_name ++ "' object has no attribute '" ++ attr ++ "'") None.

(** Reading an object out of a store.  A reference that the store does not
    bind behaves as an object without the attribute. *)
Definition deref {V} (store : world → gmap loc V) (l : loc)
    (type_name attr : string) : M V := λ w,
  match store w !! l with
  | Some v => (Ok v, w)
  | None => (Raise (no_attribute type_name attr), w)
  end.

(** ** The operations of the library and of the bundles *)

Section Builder.
Variable faiss : faiss_env.

(** [faiss.IndexHNSWCagra()] and [faiss.IndexBinaryHNSWCagra()]: a new
    object of the family, distinct from every CPU index in the store. *)
Definition alloc_cpu_index (fam : family) : M loc := λ w,
  let c := fresh (dom (cpu_indexes w)) in
  (Ok c,
   log (EvNewIndex fam c)
     (put_cpu_index c
        (IndexHNSWCagra.make fam (initial_efConstruction faiss)
           (initial_efSearch faiss) (initial_base_level_only faiss)
           None) w)).

Definition new_cpu_index (fam : family) : M loc :=
  may_raise (ctor_raises faiss fam);; alloc_cpu_index fam.

(** [self.<attr>] *)
Definition getattr_self (self : loc) (attr : string)
    (field : FaissIndexHNSWCagraBuilder → pyval) : M pyval :=
  b ← deref builders self "FaissIndexHNSWCagraBuilder" attr;
  mret (field b).

(** Assignment to an attribute of a CPU index: the library's setter may
    refuse the value; otherwise the attribute holds it. *)
Definition setattr_cpu_index (c : loc) (attr : string) (v : pyval)
    (upd : IndexHNSWCagra.t → IndexHNSWCagra.t) : M unit :=
  i ← deref cpu_indexes c "IndexHNSWCagra" attr;
  may_raise (λ w, setattr_raises faiss w c attr v);;
  modify (put_cpu_index c (upd i)).

(** [cpu_index.hnsw.efConstruction = v] *)
Definition set_efConstruction (c : loc) (v : pyval) : M unit :=
  setattr_cpu_index c "efConstruction" v
    (λ i, IndexHNSWCagra.make (IndexHNSWCagra.index_family i) v
            (IndexHNSWCagra.efSearch i) (IndexHNSWCagra.base_level_only i)
            (IndexHNSWCagra.copied_from i)).

(** [cpu_index.hnsw.efSearch = v] *)
Definition set_efSearch (c : loc) (v : pyval) : M unit :=
  setattr_cpu_index c "efSearch" v
    (λ i, IndexHNSWCagra.make (IndexHNSWCagra.index_family i)
            (IndexHNSWCagra.efConstruction i) v
            (IndexHNSWCagra.base_level_only i)
            (IndexHNSWCagra.copied_from i)).

(** [cpu_index.base_level_only = v] *)
Definition set_base_level_only (c : loc) (v : pyval) : M unit :=
  setattr_cpu_index c "base_level_only" v
    (λ i, IndexHNSWCagra.make (IndexHNSWCagra.index_family i)
            (IndexHNSWCagra.efConstruction i) (IndexHNSWCagra.efSearch i) v
            (IndexHNSWCagra.copied_from i)).

(** [source.copyTo(cpu_index)], where [source] is what the bundle's
    [gpu_index] attribute holds.  The library fills the graph of the
    destination from the GPU index; the destination's settings are its own
    attributes and stay as assigned. *)
Definition copyTo (source : option loc) (c : loc) : M unit :=
  match source with
  | None => raise (no_attribute "NoneType" "copyTo")
  | Some g =>
      i ← deref cpu_indexes c "IndexHNSWCagra" "copyTo";
      may_raise (λ w, copyTo_raises faiss w g c);;
      modify (λ w,
        log (EvCopyTo g c)
          (put_cpu_index c
             (IndexHNSWCagra.make (IndexHNSWCagra.index_family i)
                (IndexHNSWCagra.efConstruction i)
                (IndexHNSWCagra.efSearch i)
                (IndexHNSWCagra.base_level_only i) (Some g)) w))
  end.

(** [faiss_gpu_build_index_output.gpu_index] *)
Definition get_gpu_index (out : loc) : M (option loc) :=
  o ← deref gpu_outputs out "FaissGpuBuildIndexOutput" "gpu_index";
  mret (GpuOut.gpu_index o).

(** [faiss_gpu_build_index_output.index_id_map] *)
Definition get_index_id_map (out : loc) : M (option loc) :=
  o ← deref gpu_outputs out "FaissGpuBuildIndexOutput" "index_id_map";
  mret (GpuOut.index_id_map o).

(** [faiss_gpu_build_index_output.index_id_map = v] *)
Definition set_index_id_map (out : loc) (v : option loc) : M unit :=
  o ← deref gpu_outputs out "FaissGpuBuildIndexOutput" "index_id_map";
  modify (λ w,
    log (EvSetBundleWrapper out v)
      (put_gpu_output out
         (GpuOut.make (GpuOut.gpu_index o) v (GpuOut.released o))
         w)).

(** [target.index = v], where [target] is what an [index_id_map] attribute
    or variable holds. *)
Definition set_wrapper_index (target : option loc) (v : option index_ref)
  : M unit :=
  match target with
  | None => raise (no_attribute "NoneType" "index")
  | Some m =>
      _ ← deref id_maps m "IndexIDMap" "index";
      may_raise (λ w, set_index_raises faiss w m v);;
      modify (λ w, log (EvSetWrapperIndex m v) (put_id_map m v w))
  end.

(** The error of a second [cleanup] on one bundle. *)
Definition double_release : exc :=
  Exc PyRuntimeError "cleanup called on a released bundle" None.

(** Modelled from the spec: [FaissGpuBuildIndexOutput.cleanup] is not among
    the sources.  The spec has it release the bundle's resources, after
    which the bundle counts as destroyed, and makes a second call an
    error.  The call is recorded in the trace when it is made. *)
Definition gpu_cleanup (out : loc) : M unit :=
  o ← deref gpu_outputs out "FaissGpuBuildIndexOutput" "cleanup";
  modify (log (EvCleanup (GpuBundle out)));;
  if GpuOut.released o then raise double_release
  else
    may_raise (λ w, cleanup_raises faiss w (GpuBundle out));;
    modify (put_gpu_output out
              (GpuOut.make (GpuOut.gpu_index o)
                 (GpuOut.index_id_map o) true)).

(** Modelled from the spec: [FaissCpuBuildIndexOutput.cleanup] is not among
    the sources; it is specified like the GPU bundle's.  Of a release the
    model records the call and the bundle's [released] flag only: it does
    not say what becomes of the released index and wrapper, and no property
    below speaks of them after a [cleanup]. *)
Definition cpu_cleanup (out : loc) : M unit :=
  o ← deref cpu_outputs out "FaissCpuBuildIndexOutput" "cleanup";
  modify (log (EvCleanup (CpuBundle out)));;
  if CpuOut.released o then raise double_release
  else
    may_raise (λ w, cleanup_raises faiss w (CpuBundle out));;
    modify (put_cpu_output out
              (CpuOut.make (CpuOut.cpu_index o)
                 (CpuOut.index_id_map o) true)).

(** [FaissCpuBuildIndexOutput(cpu_index=c, index_id_map=m)]: a new bundle
    object. *)
Definition new_cpu_output (c : loc) (m : option loc) : M loc :=
  λ w, let b := fresh (dom (cpu_outputs w)) in
       (Ok b, put_cpu_output b (CpuOut.make (Some c) m false) w).

(** [cpu_build_index_output.index_id_map] *)
Definition get_cpu_index_id_map (out : loc) : M (option loc) :=
  o ← deref cpu_outputs out "FaissCpuBuildIndexOutput" "index_id_map";
  mret (CpuOut.index_id_map o).

(** [faiss.write_index(m, path)] for the standard family and
    [faiss.write_index_binary(m, path)] for the binary one.  The call is
    recorded when it is made; when it returns, the file holds the wrapper
    in the family's format. *)
Definition faiss_write (fam : family) (m : option loc) (path : string)
  : M unit :=
  modify (log (EvWrite fam m path));;
  may_raise (λ w, write_raises faiss fam w m path);;
  modify (put_file path (fam, m)).

(** ** The methods of the builder *)

(** The names under which the source calls the library. *)
Abbreviation faiss_IndexHNSWCagra := (new_cpu_index StandardFamily).
Abbreviation faiss_IndexBinaryHNSWCagra := (new_cpu_index BinaryFamily).
Abbreviation faiss_write_index := (faiss_write StandardFamily).
Abbreviation faiss_write_index_binary := (faiss_write BinaryFamily).

(** The exception that both conversion bodies raise from a caught [e]. *)
Definition conversion_failed (e : exc) : exc :=
  Exception_from ("Failed to convert GPU index to CPU index: " ++ str e) e.

(** The [try] block of [_do_convert_gpu_to_cpu_index]. *)
Definition _do_convert_gpu_to_cpu_index_try (self out : loc) : M loc :=
    (cpu_index ← faiss_IndexHNSWCagra;
     v ← getattr_self self "ef_construction" ef_construction;
     set_efConstruction cpu_index v;;
     v ← getattr_self self "ef_search" ef_search;
     set_efSearch cpu_index v;;
     v ← getattr_self self "base_level_only" base_level_only;
     set_base_level_only cpu_index v;;
     g ← get_gpu_index out;
     copyTo g cpu_index;;
     m ← get_index_id_map out;
     set_wrapper_index m None;;
     index_id_map ← get_index_id_map out;
     set_index_id_map out None;;
     set_wrapper_index index_id_map (Some (CpuIndex cpu_index));;
     gpu_cleanup out;;
     new_cpu_output cpu_index index_id_map).

Definition _do_convert_gpu_to_cpu_index (self out : loc) : M loc :=
  try_except (_do_convert_gpu_to_cpu_index_try self out)
    (λ e, raise (conversion_failed e)).

(** The [try] block of [_do_convert_gpu_to_cpu_binary_index]. *)
Definition _do_convert_gpu_to_cpu_binary_index_try (self out : loc)
  : M loc :=
    (cpu_index ← faiss_IndexBinaryHNSWCagra;
     v ← getattr_self self "ef_construction" ef_construction;
     set_efConstruction cpu_index v;;
     v ← getattr_self self "ef_search" ef_search;
     set_efSearch cpu_index v;;
     v ← getattr_self self "base_level_only" base_level_only;
     set_base_level_only cpu_index v;;
     g ← get_gpu_index out;
     copyTo g cpu_index;;
     m ← get_index_id_map out;
     set_wrapper_index m None;;
     index_id_map ← get_index_id_map out;
     set_index_id_map out None;;
     set_wrapper_index index_id_map (Some (CpuIndex cpu_index));;
     gpu_cleanup out;;
     new_cpu_output cpu_index index_id_map).

Definition _do_convert_gpu_to_cpu_binary_index (self out : loc) : M loc :=
  try_except (_do_convert_gpu_to_cpu_binary_index_try self out)
    (λ e, raise (conversion_failed e)).

Definition convert_gpu_to_cpu_index (self out : loc) : M loc :=
  dtype ← getattr_self self "vector_dtype" vector_dtype;
  if py_ne dtype (VDataType BINARY)
  then _do_convert_gpu_to_cpu_index self out
  else _do_convert_gpu_to_cpu_binary_index self out.

(** The exception raised from a caught [IOError]. *)
Definition write_failed (path : string) (io_error : exc) : exc :=
  Exception_from
    ("Failed to write index to file " ++ path ++ ": " ++ str io_error)
    io_error.

(** The exception raised from any other caught exception. *)
Definition write_unexpected (e : exc) : exc :=
  Exception_from
    ("Unexpected error while writing index to file: " ++ str e) e.

(** The [try] block of [write_cpu_index]. *)
Definition write_cpu_index_try (self out : loc) (path : string) : M unit :=
    (dtype ← getattr_self self "vector_dtype" vector_dtype;
     (if py_ne dtype (VDataType BINARY)
      then m ← get_cpu_index_id_map out;
           faiss_write_index m path
      else m ← get_cpu_index_id_map out;
           faiss_write_index_binary m path);;
     cpu_cleanup out).

(** The first clause catches [IOError], the second every other
    exception. *)
Definition write_cpu_index (self out : loc) (path : string) : M unit :=
  try_except (write_cpu_index_try self out path)
    (λ e, if isinstance_IOError e
          then raise (write_failed path e)
          else raise (write_unexpected e)).
End Builder.

(** The family that the spec assigns to a vector data type. *)
Definition family_of (d : DataType) : family :=
  match d with
  | FLOAT => StandardFamily
  | BINARY => BinaryFamily
  end.

(** The relocation actions in a trace: assignments to a wrapper's [index]
    and to a bundle's [index_id_map]. *)
Definition is_relocation (ev : event) : bool :=
  match ev with
  | EvSetWrapperIndex _ _ | EvSetBundleWrapper _ _ => true
  | _ => false
  end.

Definition relocations (tr : list event) : list event :=
  List.filter is_relocation tr.

(** The writer calls in a trace. *)
Definition is_write (ev : event) : bool :=
  match ev with
  | EvWrite _ _ _ => true
  | _ => false
  end.

Definition writer_calls (tr : list event) : list event :=
  List.filter is_write tr.

(** The relocation actions of a complete conversion of the bundle [out]
    from the store [w]: on the wrapper [m] that the bundle holds, and towards
    the CPU index that the conversion allocates. *)
Definition expected_relocation (out : loc) (w : world) : list event :=
  match gpu_outputs w !! out ≫= GpuOut.index_id_map with
  | Some m =>
      [EvSetWrapperIndex m None; EvSetBundleWrapper out None;
       EvSetWrapperIndex m (Some (CpuIndex (fresh (dom (cpu_indexes w)))))]
  | None => []
  end.

(** ** Concrete libraries and stores used to exercise the model *)

(** A library in which no call raises; a fresh index has faiss's initial
    settings. *)
Definition quiet_faiss : faiss_env :=
  {| ctor_raises := λ _ _, None;
     setattr_raises := λ _ _ _ _, None;
     copyTo_raises := λ _ _ _, None;
     set_index_raises := λ _ _ _, None;
     cleanup_raises := λ _ _, None;
     write_raises := λ _ _ _ _, None;
     initial_efConstruction := VInt 40;
     initial_efSearch := VInt 16;
     initial_base_level_only := VBool false |}.

(** A library whose GPU-to-CPU copy raises. *)
Definition copy_error : exc :=
  Exc PyRuntimeError "Error in GpuIndexCagra::copyTo" None.

Definition failing_copy_faiss : faiss_env :=
  {| ctor_raises := λ _ _, None;
     setattr_raises := λ _ _ _ _, None;
     copyTo_raises := λ _ _ _, Some copy_error;
     set_index_raises := λ _ _ _, None;
     cleanup_raises := λ _ _, None;
     write_raises := λ _ _ _ _, None;
     initial_efConstruction := VInt 40;
     initial_efSearch := VInt 16;
     initial_base_level_only := VBool false |}.

(** A library whose writers raise [e] for every path. *)
Definition failing_write_faiss (e : exc) : faiss_env :=
  {| ctor_raises := λ _ _, None;
     setattr_raises := λ _ _ _ _, None;
     copyTo_raises := λ _ _ _, None;
     set_index_raises := λ _ _ _, None;
     cleanup_raises := λ _ _, None;
     write_raises := λ _ _ _ _, Some e;
     initial_efConstruction := VInt 40;
     initial_efSearch := VInt 16;
     initial_base_level_only := VBool false |}.

Definition could_not_open : exc :=
  Exc PyRuntimeError
      "could not open /nonexistent/index.faiss for writing: No such file or directory"
      None.

Definition no_such_directory : exc :=
  Exc PyFileNotFoundError
      "[Errno 2] No such file or directory: '/nonexistent/index.faiss'" None.

(** The [RuntimeError] with which the library's writers report a file that
    they cannot open. *)
Definition cannot_open (path : string) : exc :=
  Exc PyRuntimeError
      ("could not open " ++ path
       ++ " for writing: No such file or directory") None.

(** A library whose writers can open exactly the paths in [writable], and
    report every other path with [cannot_open]; no other call raises. *)
Definition path_checking_faiss (writable : gset string) : faiss_env :=
  {| ctor_raises := λ _ _, None;
     setattr_raises := λ _ _ _ _, None;
     copyTo_raises := λ _ _ _, None;
     set_index_raises := λ _ _ _, None;
     cleanup_raises := λ _ _, None;
     write_raises := λ _ _ _ path,
       if decide (path ∈ writable) then None else Some (cannot_open path);
     initial_efConstruction := VInt 40;
     initial_efSearch := VInt 16;
     initial_base_level_only := VBool false |}.

Definition sample_params : gmap string pyval :=
  {[ "ef_search" := VInt 50; "ef_construction" := VInt 200;
     "base_level_only" := VBool false ]}.

Definition sample_builder (d : DataType) : FaissIndexHNSWCagraBuilder :=
  {| ef_search := VInt 50; ef_construction := VInt 200;
     base_level_only := VBool false; vector_dtype := VDataType d |}.

(** A store with the builder at 1; a GPU index 9, its wrapper 7 and the GPU
    bundle 5 that holds both; a CPU index 2, its wrapper 8 and the CPU
    bundle 4 that holds both. *)
Definition sample_world (d : DataType) : world :=
  World {[ 1%positive := sample_builder d ]}
        {[ 2%positive := IndexHNSWCagra.make (family_of d) (VInt 200)
                           (VInt 50) (VBool false) (Some 6%positive) ]}
        {[ 7%positive := Some (GpuIndex 9); 8%positive := Some (CpuIndex 2) ]}
        {[ 5%positive := GpuOut.make (Some 9%positive) (Some 7%positive)
                           false ]}
        {[ 4%positive := CpuOut.make (Some 2%positive) (Some 8%positive)
                           false ]}
        ∅ [].

(** The store after the conversion of bundle 5 with the quiet library. *)
Definition sample_converted (d : DataType) : world :=
  (convert_gpu_to_cpu_index quiet_faiss 1 5 (sample_world d)).2.

(** The store after a conversion whose copy raises. *)
Definition sample_copy_failed : world :=
  (convert_gpu_to_cpu_index failing_copy_faiss 1 5 (sample_world FLOAT)).2.

(** The store after a write that the library refuses with [e]. *)
Definition sample_write_failed (e : exc) : world :=
  (write_cpu_index (failing_write_faiss e) 1 4 "/nonexistent/index.faiss"
     (sample_world FLOAT)).2.

(** ** The outcome of a conversion that returns *)

(** [converted fam self out w bundle w']: from the store [w], the conversion
    of the GPU bundle [out] for the builder [self] has produced the CPU
    bundle [bundle] and the store [w'], with a new CPU index of family
    [fam]. *)
Definition converted (fam : family) (self out : loc) (w : world)
    (bundle : loc) (w' : world) : Prop :=
  ∃ b o g m,
    let c := fresh (dom (cpu_indexes w)) in
    builders w !! self = Some b
    ∧ gpu_outputs w !! out = Some o
    ∧ GpuOut.gpu_index o = Some g
    ∧ GpuOut.index_id_map o = Some m
    ∧ GpuOut.released o = false
    ∧ is_Some (id_maps w !! m)
    ∧ bundle = fresh (dom (cpu_outputs w))
    ∧ builders w' = builders w
    ∧ cpu_indexes w' =
        <[c := IndexHNSWCagra.make fam (ef_construction b) (ef_search b)
                 (base_level_only b) (Some g)]> (cpu_indexes w)
    ∧ id_maps w' = <[m := Some (CpuIndex c)]> (id_maps w)
    ∧ gpu_outputs w' =
        <[out := GpuOut.make (Some g) None true]> (gpu_outputs w)
    ∧ cpu_outputs w' =
        <[bundle := CpuOut.make (Some c) (Some m) false]> (cpu_outputs w)
    ∧ files w' = files w
    ∧ trace w' =
        (trace w ++ [EvNewIndex fam c; EvCopyTo g c; EvSetWrapperIndex m None;
                     EvSetBundleWrapper out None;
                     EvSetWrapperIndex m (Some (CpuIndex c));
                     EvCleanup (GpuBundle out)])%list.

(** The family selected by the test [vector_dtype != DataType.BINARY]. *)
Definition selected_family (b : FaissIndexHNSWCagraBuilder) : family :=
  if py_ne (vector_dtype b) (VDataType BINARY)
  then StandardFamily else BinaryFamily.

(** ** Frame conditions *)

(** [keeps f m]: running [m] leaves the component [f] of the store as it
    was, whether [m] returns or raises. *)
Definition keeps {X A} (f : world → X) (m : M A) : Prop :=
  ∀ w, f (m w).2 = f w.

(** [keeps_on_raise f m]: a run of [m] that raises leaves [f] as it was. *)
Definition keeps_on_raise {X A} (f : world → X) (m : M A) : Prop :=
  ∀ w e w', m w = (Raise e, w') → f w' = f w.

(** ** The outcome of a conversion that raises *)

(** [interrupted out w w']: from the store [w], a conversion of the GPU
    bundle [out] has stopped in the store [w'].  It has touched no builder,
    no CPU bundle and no file, and it has stopped before the relocation, or
    after one, two or all three of its assignments; nothing is undone. *)
Definition interrupted (out : loc) (w w' : world) : Prop :=
  ∃ t,
    trace w' = (trace w ++ t)%list
    ∧ builders w' = builders w
    ∧ cpu_outputs w' = cpu_outputs w
    ∧ files w' = files w
    ∧ ((relocations t = []
        ∧ gpu_outputs w' = gpu_outputs w ∧ id_maps w' = id_maps w)
       ∨ ∃ o m,
           let c := fresh (dom (cpu_indexes w)) in
           let o' :=
             GpuOut.make (GpuOut.gpu_index o) None (GpuOut.released o) in
           gpu_outputs w !! out = Some o
           ∧ GpuOut.index_id_map o = Some m
           ∧ ((relocations t = [EvSetWrapperIndex m None]
               ∧ gpu_outputs w' = gpu_outputs w
               ∧ id_maps w' = <[m := None]> (id_maps w))
              ∨ (relocations t
                 = [EvSetWrapperIndex m None; EvSetBundleWrapper out None]
                 ∧ gpu_outputs w' = <[out := o']> (gpu_outputs w)
                 ∧ id_maps w' = <[m := None]> (id_maps w))
              ∨ (relocations t
                 = [EvSetWrapperIndex m None; EvSetBundleWrapper out None;
                    EvSetWrapperIndex m (Some (CpuIndex c))]
                 ∧ gpu_outputs w' = <[out := o']> (gpu_outputs w)
                 ∧ id_maps w' = <[m := Some (CpuIndex c)]> (id_maps w)))).

(** A library in which the bundles' [cleanup] raises. *)
Definition cleanup_error : exc :=
  Exc PyRuntimeError "cleanup failed" None.

Definition failing_cleanup_faiss : faiss_env :=
  {| ctor_raises := λ _ _, None;
     setattr_raises := λ _ _ _ _, None;
     copyTo_raises := λ _ _ _, None;
     set_index_raises := λ _ _ _, None;
     cleanup_raises := λ _ _, Some cleanup_error;
     write_raises := λ _ _ _ _, None;
     initial_efConstruction := VInt 40;
     initial_efSearch := VInt 16;
     initial_base_level_only := VBool false |}.

(** The store after a conversion whose GPU [cleanup] raises. *)
Definition sample_cleanup_failed : world :=
  (convert_gpu_to_cpu_index failing_cleanup_faiss 1 5 (sample_world FLOAT)).2.

(** The store after a write whose CPU [cleanup] raises. *)
Definition sample_written_unreleased : world :=
  (write_cpu_index failing_cleanup_faiss 1 4 "/tmp/index.faiss"
     (sample_world FLOAT)).2.

(** A builder whose [vector_dtype] is [None], as [from_dict] builds it from
    a mapping that says so. *)
Definition untyped_world : world :=
  World {[ 1%positive :=
             {| ef_search := VInt 50; ef_construction := VInt 200;
                base_level_only := VBool false; vector_dtype := VNone |} ]}
        (cpu_indexes (sample_world FLOAT)) (id_maps (sample_world FLOAT))
        (gpu_outputs (sample_world FLOAT)) (cpu_outputs (sample_world FLOAT))
        ∅ [].

(** * Properties *)

(** ** Running computations *)

Lemma bind_run {A B} (m : M A) (k : A → M B) (w : world) :
  (m ≫= k) w =
  match m w with
  | (Ok a, w1) => k a w1
  | (Raise e, w1) => (Raise e, w1)
  end.
Proof. reflexivity. Qed.

Lemma bind_Ok {A B} (m : M A) (k : A → M B) w b w' :
  (m ≫= k) w = (Ok b, w') →
  ∃ a w1, m w = (Ok a, w1) ∧ k a w1 = (Ok b, w').
Proof.
  rewrite bind_run. destruct (m w) as [[a|e] w1]; [eauto | discriminate].
Qed.

Lemma bind_Raise {A B} (m : M A) (k : A → M B) w e w' :
  (m ≫= k) w = (Raise e, w') →
  m w = (Raise e, w') ∨ ∃ a w1, m w = (Ok a, w1) ∧ k a w1 = (Raise e, w').
Proof.
  rewrite bind_run. destruct (m w) as [[a|e0] w1]; intros H.
  - right. exists a, w1. split; [reflexivity | exact H].
  - left. injection H as -> ->. reflexivity.
Qed.

Lemma try_except_Ok {A} (body : M A) (h : exc → exc) w a w' :
  try_except body (λ e, raise (h e)) w = (Ok a, w') → body w = (Ok a, w').
Proof.
  unfold try_except, raise. destruct (body w) as [[a0|e] w1]; congruence.
Qed.

Lemma try_except_Raise {A} (body : M A) (handler : exc → M A) w e w' :
  try_except body handler w = (Raise e, w') →
  ∃ e0 w1, body w = (Raise e0, w1) ∧ handler e0 w1 = (Raise e, w').
Proof.
  unfold try_except. destruct (body w) as [[a0|e0] w1]; [discriminate|eauto].
Qed.

Lemma deref_Ok {V} (store : world → gmap loc V) l tn attr w v w' :
  deref store l tn attr w = (Ok v, w') → store w !! l = Some v ∧ w' = w.
Proof. unfold deref. destruct (store w !! l); intros [= <- <-]; auto. Qed.

Lemma may_raise_Ok oracle w u w' :
  may_raise oracle w = (Ok u, w') → oracle w = None ∧ w' = w.
Proof. unfold may_raise. destruct (oracle w); intros [= <-]; auto. Qed.

Lemma modify_Ok f w u w' : modify f w = (Ok u, w') → w' = f w.
Proof. unfold modify. congruence. Qed.

Lemma mret_Ok {A} (a b : A) (w w' : world) :
  mret (M := M) a w = (Ok b, w') → b = a ∧ w' = w.
Proof. unfold mret, M_ret. intros [= -> ->]; auto. Qed.

(** ** Frame rules *)

Section Frames.
Context {X : Type} (f : world → X).

Lemma keeps_mret {A} (a : A) : keeps f (mret a).
Proof. intros w. reflexivity. Qed.

Lemma keeps_raise {A} (e : exc) : keeps f (raise (A := A) e).
Proof. intros w. reflexivity. Qed.

Lemma keeps_may_raise oracle : keeps f (may_raise oracle).
Proof. intros w. unfold may_raise. destruct (oracle w); reflexivity. Qed.

Lemma keeps_deref {V} (store : world → gmap loc V) l tn attr :
  keeps f (deref store l tn attr).
Proof. intros w. unfold deref. destruct (store w !! l); reflexivity. Qed.

Lemma keeps_modify g : (∀ w, f (g w) = f w) → keeps f (modify g).
Proof. intros Hg w. apply Hg. Qed.

Lemma keeps_bind {A B} (m : M A) (k : A → M B) :
  keeps f m → (∀ a, keeps f (k a)) → keeps f (m ≫= k).
Proof.
  intros Hm Hk w. rewrite bind_run. specialize (Hm w).
  destruct (m w) as [[a|e] w1]; simpl in *; [|exact Hm].
  rewrite <- Hm. apply Hk.
Qed.

Lemma keeps_try_except {A} (body : M A) (handler : exc → M A) :
  keeps f body → (∀ e, keeps f (handler e)) →
  keeps f (try_except body handler).
Proof.
  intros Hb Hh w. unfold try_except. specialize (Hb w).
  destruct (body w) as [[a|e] w1]; simpl in *; [exact Hb|].
  rewrite <- Hb. apply Hh.
Qed.

Lemma keeps_on_raise_of_keeps {A} (m : M A) :
  keeps f m → keeps_on_raise f m.
Proof. intros Hm w e w' Hrun. specialize (Hm w). by rewrite Hrun in Hm. Qed.

Lemma keeps_on_raise_bind {A B} (m : M A) (k : A → M B) :
  keeps f m → (∀ a, keeps_on_raise f (k a)) → keeps_on_raise f (m ≫= k).
Proof.
  intros Hm Hk w e w' Hrun. specialize (Hm w).
  apply bind_Raise in Hrun as [Hrun | (a & w1 & Hrun & Hk')].
  - by rewrite Hrun in Hm.
  - rewrite Hrun in Hm. simpl in Hm. rewrite <- Hm. by eapply Hk.
Qed.

Lemma keeps_on_raise_try_except {A} (body : M A) (h : exc → exc) :
  keeps_on_raise f body →
  keeps_on_raise f (try_except body (λ e, raise (h e))).
Proof.
  intros Hb w e w' Hrun.
  apply try_except_Raise in Hrun as (e0 & w1 & Hrun & [= _ <-]).
  by eapply Hb.
Qed.
End Frames.

(** Decomposes a frame goal along the structure of the computation. *)
Ltac frame_step :=
  first
    [ apply keeps_mret
    | apply keeps_raise
    | apply keeps_may_raise
    | apply keeps_deref
    | apply keeps_modify; intros ?; reflexivity
    | apply keeps_bind; [|intros ?]
    | apply keeps_try_except; [|intros ?]
    | match goal with
      | |- keeps _ (if ?b then _ else _) => destruct b
      | |- keeps _ (match ?o with Some _ => _ | None => _ end) => destruct o
      end ].

Ltac frame := repeat frame_step.

Section BuilderFrames.
Variable faiss : faiss_env.

(** No operation of the library or of the bundles assigns to a builder. *)
Lemma new_cpu_index_keeps_builders fam :
  keeps builders (new_cpu_index faiss fam).
Proof. unfold new_cpu_index. frame; intros w; reflexivity. Qed.

Lemma getattr_self_keeps {X} (f : world → X) self attr field :
  keeps f (getattr_self self attr field).
Proof. unfold getattr_self. frame. Qed.

Lemma setattr_cpu_index_keeps_builders c attr v upd :
  keeps builders (setattr_cpu_index faiss c attr v upd).
Proof. unfold setattr_cpu_index. frame. Qed.

Lemma copyTo_keeps_builders g c : keeps builders (copyTo faiss g c).
Proof. unfold copyTo. frame. Qed.

Lemma get_gpu_index_keeps {X} (f : world → X) out :
  keeps f (get_gpu_index out).
Proof. unfold get_gpu_index. frame. Qed.

Lemma get_index_id_map_keeps {X} (f : world → X) out :
  keeps f (get_index_id_map out).
Proof. unfold get_index_id_map. frame. Qed.

Lemma get_cpu_index_id_map_keeps {X} (f : world → X) out :
  keeps f (get_cpu_index_id_map out).
Proof. unfold get_cpu_index_id_map. frame. Qed.

Lemma set_index_id_map_keeps_builders out v :
  keeps builders (set_index_id_map out v).
Proof. unfold set_index_id_map. frame. Qed.

Lemma set_wrapper_index_keeps_builders target v :
  keeps builders (set_wrapper_index faiss target v).
Proof. unfold set_wrapper_index. frame. Qed.

Lemma gpu_cleanup_keeps_builders out :
  keeps builders (gpu_cleanup faiss out).
Proof. unfold gpu_cleanup. frame. Qed.

Lemma cpu_cleanup_keeps_builders out :
  keeps builders (cpu_cleanup faiss out).
Proof. unfold cpu_cleanup. frame. Qed.

Lemma new_cpu_output_keeps_builders c m :
  keeps builders (new_cpu_output c m).
Proof. intros w. reflexivity. Qed.

Lemma faiss_write_keeps_builders fam m path :
  keeps builders (faiss_write faiss fam m path).
Proof. unfold faiss_write. frame. Qed.

(** Up to the construction of the returned bundle, a conversion leaves the
    CPU bundles of the store alone. *)
Lemma new_cpu_index_keeps_cpu_outputs fam :
  keeps cpu_outputs (new_cpu_index faiss fam).
Proof. unfold new_cpu_index. frame; intros w; reflexivity. Qed.

Lemma setattr_cpu_index_keeps_cpu_outputs c attr v upd :
  keeps cpu_outputs (setattr_cpu_index faiss c attr v upd).
Proof. unfold setattr_cpu_index. frame. Qed.

Lemma copyTo_keeps_cpu_outputs g c : keeps cpu_outputs (copyTo faiss g c).
Proof. unfold copyTo. frame. Qed.

Lemma set_index_id_map_keeps_cpu_outputs out v :
  keeps cpu_outputs (set_index_id_map out v).
Proof. unfold set_index_id_map. frame. Qed.

Lemma set_wrapper_index_keeps_cpu_outputs target v :
  keeps cpu_outputs (set_wrapper_index faiss target v).
Proof. unfold set_wrapper_index. frame. Qed.

Lemma gpu_cleanup_keeps_cpu_outputs out :
  keeps cpu_outputs (gpu_cleanup faiss out).
Proof. unfold gpu_cleanup. frame. Qed.

Lemma new_cpu_output_never_raises {X} (f : world → X) c m :
  keeps_on_raise f (new_cpu_output c m).
Proof. intros w e w'. unfold new_cpu_output. discriminate. Qed.
End BuilderFrames.

Create HintDb frames.

#[local] Hint Resolve new_cpu_index_keeps_builders getattr_self_keeps
  setattr_cpu_index_keeps_builders copyTo_keeps_builders get_gpu_index_keeps
  get_index_id_map_keeps get_cpu_index_id_map_keeps
  set_index_id_map_keeps_builders set_wrapper_index_keeps_builders
  gpu_cleanup_keeps_builders cpu_cleanup_keeps_builders
  new_cpu_output_keeps_builders faiss_write_keeps_builders
  new_cpu_index_keeps_cpu_outputs setattr_cpu_index_keeps_cpu_outputs
  copyTo_keeps_cpu_outputs set_index_id_map_keeps_cpu_outputs
  set_wrapper_index_keeps_cpu_outputs gpu_cleanup_keeps_cpu_outputs
  new_cpu_output_never_raises : frames.

Lemma do_convert_keeps_builders faiss self out :
  keeps builders (_do_convert_gpu_to_cpu_index faiss self out).
Proof.
  unfold _do_convert_gpu_to_cpu_index, _do_convert_gpu_to_cpu_index_try,
    set_efConstruction, set_efSearch, set_base_level_only.
  repeat first [ solve [auto with frames] | frame_step ].
Qed.

Lemma do_convert_binary_keeps_builders faiss self out :
  keeps builders (_do_convert_gpu_to_cpu_binary_index faiss self out).
Proof.
  unfold _do_convert_gpu_to_cpu_binary_index,
    _do_convert_gpu_to_cpu_binary_index_try, set_efConstruction,
    set_efSearch, set_base_level_only.
  repeat first [ solve [auto with frames] | frame_step ].
Qed.

Lemma convert_keeps_builders faiss self out :
  keeps builders (convert_gpu_to_cpu_index faiss self out).
Proof.
  unfold convert_gpu_to_cpu_index.
  apply keeps_bind; [auto with frames|]. intros dtype.
  destruct (py_ne dtype (VDataType BINARY));
    [apply do_convert_keeps_builders | apply do_convert_binary_keeps_builders].
Qed.

Lemma write_keeps_builders faiss self out path :
  keeps builders (write_cpu_index faiss self out path).
Proof.
  unfold write_cpu_index, write_cpu_index_try.
  repeat first [ solve [auto with frames] | frame_step ].
Qed.

(** C10: neither [convert_gpu_to_cpu_index] nor [write_cpu_index] changes
    the builder it is called on (nor any other builder of the store): after
    the call, whether it returned or raised, [self] has the [ef_search],
    [ef_construction], [base_level_only] and [vector_dtype] it had before. *)
Theorem builder_configuration_unchanged
    (faiss : faiss_env) (self out : loc) (path : string) (w : world) :
  builders (convert_gpu_to_cpu_index faiss self out w).2 !! self
    = builders w !! self
  ∧ builders (write_cpu_index faiss self out path w).2 !! self
    = builders w !! self.
Proof.
  split.
  - by rewrite convert_keeps_builders.
  - by rewrite write_keeps_builders.
Qed.

(** ** Failure of a conversion *)

Lemma getattr_self_run self attr field w b :
  builders w !! self = Some b →
  getattr_self self attr field w = (Ok (field b), w).
Proof.
  intros Hb. unfold getattr_self. rewrite bind_run. unfold deref.
  by rewrite Hb.
Qed.

Lemma do_convert_try_raise_keeps_cpu_outputs faiss self out :
  keeps_on_raise cpu_outputs (_do_convert_gpu_to_cpu_index_try faiss self out).
Proof.
  unfold _do_convert_gpu_to_cpu_index_try, set_efConstruction, set_efSearch,
    set_base_level_only.
  repeat first
    [ apply new_cpu_output_never_raises
    | apply keeps_on_raise_bind; [solve [auto with frames] | intros ?] ].
Qed.

Lemma do_convert_binary_try_raise_keeps_cpu_outputs faiss self out :
  keeps_on_raise cpu_outputs
    (_do_convert_gpu_to_cpu_binary_index_try faiss self out).
Proof.
  unfold _do_convert_gpu_to_cpu_binary_index_try, set_efConstruction,
    set_efSearch, set_base_level_only.
  repeat first
    [ apply new_cpu_output_never_raises
    | apply keeps_on_raise_bind; [solve [auto with frames] | intros ?] ].
Qed.


(** ** Failure of a write *)

(** C3, as the code has it: a write that fails raises an [Exception] whose
    cause is the exception [e0] that its [try] block raised, and whose text
    is chosen by the class of [e0] alone.  An [IOError] (that is, an
    [OSError] or one of its subclasses) gives the file message, which names
    the path; an exception of any other class gives the unexpected-error
    message, whatever made the library raise it.  The two texts never
    coincide. *)
Theorem write_failure_text_follows_exception_class
    (faiss : faiss_env) (self out : loc) (path : string) (w w' : world)
    (e : exc) :
  write_cpu_index faiss self out path w = (Raise e, w') →
  ∃ e0,
    write_cpu_index_try faiss self out path w = (Raise e0, w')
    ∧ exc_cls e = PyException
    ∧ exc_cause e = Some e0
    ∧ str e =
        match exc_cls e0 with
        | PyOSError | PyFileNotFoundError | PyPermissionError =>
            "Failed to write index to file " ++ path ++ ": " ++ str e0
        | PyException | PyRuntimeError | PyTypeError | PyAttributeError
        | PyMemoryError =>
            "Unexpected error while writing index to file: " ++ str e0
        end
    ∧ ∀ e1 : exc,
        "Failed to write index to file " ++ path ++ ": " ++ str e1
        ≠ "Unexpected error while writing index to file: " ++ str e0.
Proof.
  intros Hrun. unfold write_cpu_index in Hrun.
  apply try_except_Raise in Hrun as (e0 & w1 & Hbody & Hh).
  exists e0. unfold isinstance_IOError in Hh.
  destruct (exc_cls e0); unfold raise in Hh; simplify_eq;
    (split; [exact Hbody|]); repeat split; intros e1; discriminate.
Qed.

(** C3 as stated fails: the text does not follow the cause.  With writers
    that fail exactly on the paths they cannot open, the write to a path
    they can open returns, while the write to the other path, which fails
    for the path alone, raises the unexpected-error exception and not the
    file one. *)
Lemma unopenable_path_reported_as_unexpected :
  let faiss := path_checking_faiss {[ "/tmp/index.faiss" ]} in
  let good :=
    write_cpu_index faiss 1 4 "/tmp/index.faiss" (sample_world FLOAT) in
  let bad :=
    write_cpu_index faiss 1 4 "/nonexistent/index.faiss"
      (sample_world FLOAT) in
  good.1 = Ok ()
  ∧ bad.1 = Raise (Exc PyException
                     ("Unexpected error while writing index to file: "
                      ++ str (cannot_open "/nonexistent/index.faiss"))
                     (Some (cannot_open "/nonexistent/index.faiss")))
  ∧ ∀ e1 : exc,
      bad.1 ≠ Raise (Exc PyException
                       ("Failed to write index to file "
                        ++ "/nonexistent/index.faiss" ++ ": " ++ str e1)
                       (Some e1)).
Proof.
  assert ((write_cpu_index (path_checking_faiss {[ "/tmp/index.faiss" ]}) 1 4
             "/nonexistent/index.faiss" (sample_world FLOAT)).1
          = Raise (Exc PyException
                     ("Unexpected error while writing index to file: "
                      ++ str (cannot_open "/nonexistent/index.faiss"))
                     (Some (cannot_open "/nonexistent/index.faiss"))))
    as Hbad by (vm_compute; reflexivity).
  split; [vm_compute; reflexivity|]. split; [exact Hbad|].
  intros e1. cbv zeta. rewrite Hbad. simpl. discriminate.
Qed.

(** ** Construction from a dict *)

(** C8: a mapping whose keys are all among the four field names builds a
    builder in which each field has the mapped value, or its documented
    default (100, 100, True, FLOAT) when the key is absent; a mapping with
    any other key makes [from_dict] raise a [TypeError]. *)
Theorem from_dict_defaults_and_unknown_keys (d : gmap string pyval) :
  ((∀ k, k ∈ dom d →
      k = "ef_search" ∨ k = "ef_construction" ∨ k = "base_level_only"
      ∨ k = "vector_dtype") →
   ∃ b, from_dict (Some d) = Ok b
     ∧ ef_search b = default (VInt 100) (d !! "ef_search")
     ∧ ef_construction b = default (VInt 100) (d !! "ef_construction")
     ∧ base_level_only b = default (VBool true) (d !! "base_level_only")
     ∧ vector_dtype b = default (VDataType FLOAT) (d !! "vector_dtype"))
  ∧ (∀ k, k ∈ dom d →
      k ≠ "ef_search" → k ≠ "ef_construction" → k ≠ "base_level_only" →
      k ≠ "vector_dtype" →
      ∃ e, from_dict (Some d) = Raise e ∧ exc_cls e = PyTypeError).
Proof.
  assert (∀ k, k ∈ field_names ↔
               k = "ef_search" ∨ k = "ef_construction"
               ∨ k = "base_level_only" ∨ k = "vector_dtype") as Hfields.
  { intros k. unfold field_names.
    rewrite !elem_of_union, !elem_of_singleton. tauto. }
  split.
  - intros Hkeys. unfold from_dict. destruct (decide (d = ∅)) as [-> | Hne].
    + eexists. split; [reflexivity|]. by rewrite !lookup_empty.
    + unfold cls_kwargs. destruct (decide (dom d ⊆ field_names)) as [|Hbad].
      * eexists. split; [reflexivity|]. done.
      * exfalso. apply Hbad. intros k Hk. apply Hfields, Hkeys, Hk.
  - intros k Hk H1 H2 H3 H4. unfold from_dict.
    destruct (decide (d = ∅)) as [-> | Hne].
    { rewrite dom_empty_L in Hk. by apply elem_of_empty in Hk. }
    unfold cls_kwargs. destruct (decide (dom d ⊆ field_names)) as [Hsub|].
    + exfalso. apply Hsub, Hfields in Hk. tauto.
    + eexists. split; reflexivity.
Qed.

(** C9: [from_dict(None)] and [from_dict({})] both build the builder with
    [ef_search = 100], [ef_construction = 100], [base_level_only = True] and
    [vector_dtype = FLOAT]. *)
Theorem from_dict_none_and_empty :
  from_dict None
    = Ok {| ef_search := VInt 100; ef_construction := VInt 100;
            base_level_only := VBool true; vector_dtype := VDataType FLOAT |}
  ∧ from_dict (Some ∅)
    = Ok {| ef_search := VInt 100; ef_construction := VInt 100;
            base_level_only := VBool true; vector_dtype := VDataType FLOAT |}.
Proof.
  split; [reflexivity|]. unfold from_dict. by case_decide.
Qed.

(** ** Successful runs of the operations *)

(** One step of the symbolic execution of a run that returned. *)
Ltac exec_step :=
  match goal with
  | H : (_ ≫= _) _ = (Ok _, _) |- _ =>
      apply bind_Ok in H as (? & ? & ? & H)
  | H : deref _ _ _ _ _ = (Ok _, _) |- _ => apply deref_Ok in H as [? ->]
  | H : may_raise _ _ = (Ok _, _) |- _ => apply may_raise_Ok in H as [? ->]
  | H : modify _ _ = (Ok _, _) |- _ => apply modify_Ok in H as ->
  | H : mret _ _ = (Ok _, _) |- _ => apply mret_Ok in H as [-> ->]
  | H : raise _ _ = (Ok _, _) |- _ => discriminate H
  | H : (if ?b then _ else _) _ = (Ok _, _) |- _ => destruct b eqn:?
  | H : match ?o with Some _ => _ | None => _ end _ = (Ok _, _) |- _ =>
      destruct o eqn:?
  end.

Ltac exec := repeat exec_step.

Section Runs.
Variable faiss : faiss_env.

Lemma new_cpu_index_Ok fam w c w1 :
  new_cpu_index faiss fam w = (Ok c, w1) →
  c = fresh (dom (cpu_indexes w))
  ∧ w1 = log (EvNewIndex fam c)
           (put_cpu_index c
              (IndexHNSWCagra.make fam (initial_efConstruction faiss)
                 (initial_efSearch faiss) (initial_base_level_only faiss)
                 None) w).
Proof.
  unfold new_cpu_index. intros H. exec. unfold alloc_cpu_index in H.
  by simplify_eq.
Qed.

Lemma getattr_self_Ok self attr field w v w1 :
  getattr_self self attr field w = (Ok v, w1) →
  ∃ b, builders w !! self = Some b ∧ v = field b ∧ w1 = w.
Proof. unfold getattr_self. intros H. exec. eauto. Qed.

Lemma setattr_cpu_index_Ok c attr v upd w u w1 :
  setattr_cpu_index faiss c attr v upd w = (Ok u, w1) →
  ∃ i, cpu_indexes w !! c = Some i ∧ w1 = put_cpu_index c (upd i) w.
Proof. unfold setattr_cpu_index. intros H. exec. eauto. Qed.

Lemma copyTo_Ok source c w u w1 :
  copyTo faiss source c w = (Ok u, w1) →
  ∃ g i, source = Some g ∧ cpu_indexes w !! c = Some i
    ∧ w1 = log (EvCopyTo g c)
             (put_cpu_index c
                (IndexHNSWCagra.make (IndexHNSWCagra.index_family i)
                   (IndexHNSWCagra.efConstruction i)
                   (IndexHNSWCagra.efSearch i)
                   (IndexHNSWCagra.base_level_only i) (Some g)) w).
Proof. unfold copyTo. intros H. exec. eauto. Qed.

Lemma get_gpu_index_Ok out w g w1 :
  get_gpu_index out w = (Ok g, w1) →
  ∃ o, gpu_outputs w !! out = Some o ∧ g = GpuOut.gpu_index o ∧ w1 = w.
Proof. unfold get_gpu_index. intros H. exec. eauto. Qed.

Lemma get_index_id_map_Ok out w m w1 :
  get_index_id_map out w = (Ok m, w1) →
  ∃ o, gpu_outputs w !! out = Some o ∧ m = GpuOut.index_id_map o
    ∧ w1 = w.
Proof. unfold get_index_id_map. intros H. exec. eauto. Qed.

Lemma set_index_id_map_Ok out v w u w1 :
  set_index_id_map out v w = (Ok u, w1) →
  ∃ o, gpu_outputs w !! out = Some o
    ∧ w1 = log (EvSetBundleWrapper out v)
             (put_gpu_output out
                (GpuOut.make (GpuOut.gpu_index o) v
                   (GpuOut.released o)) w).
Proof. unfold set_index_id_map. intros H. exec. eauto. Qed.

Lemma set_wrapper_index_Ok target v w u w1 :
  set_wrapper_index faiss target v w = (Ok u, w1) →
  ∃ m, target = Some m ∧ is_Some (id_maps w !! m)
    ∧ w1 = log (EvSetWrapperIndex m v) (put_id_map m v w).
Proof. unfold set_wrapper_index. intros H. exec. eauto 6. Qed.

Lemma gpu_cleanup_Ok out w u w1 :
  gpu_cleanup faiss out w = (Ok u, w1) →
  ∃ o, gpu_outputs w !! out = Some o ∧ GpuOut.released o = false
    ∧ w1 = put_gpu_output out
             (GpuOut.make (GpuOut.gpu_index o)
                (GpuOut.index_id_map o) true)
             (log (EvCleanup (GpuBundle out)) w).
Proof. unfold gpu_cleanup. intros H. exec. eauto. Qed.

Lemma cpu_cleanup_Ok out w u w1 :
  cpu_cleanup faiss out w = (Ok u, w1) →
  ∃ o, cpu_outputs w !! out = Some o ∧ CpuOut.released o = false
    ∧ w1 = put_cpu_output out
             (CpuOut.make (CpuOut.cpu_index o)
                (CpuOut.index_id_map o) true)
             (log (EvCleanup (CpuBundle out)) w).
Proof. unfold cpu_cleanup. intros H. exec. eauto. Qed.

Lemma new_cpu_output_Ok c m w bundle w1 :
  new_cpu_output c m w = (Ok bundle, w1) →
  bundle = fresh (dom (cpu_outputs w))
  ∧ w1 = put_cpu_output bundle (CpuOut.make (Some c) m false) w.
Proof. unfold new_cpu_output. intros H. by simplify_eq. Qed.
End Runs.

(** ** Successful conversions *)

(** One step of the symbolic execution of a conversion that returned. *)
Ltac run_step :=
  match goal with
  | H : (_ ≫= _) _ = (Ok _, _) |- _ =>
      apply bind_Ok in H as (? & ? & ? & H)
  | H : new_cpu_index _ _ _ = (Ok _, _) |- _ =>
      apply new_cpu_index_Ok in H as [-> ->]
  | H : getattr_self _ _ _ _ = (Ok _, _) |- _ =>
      apply getattr_self_Ok in H as (? & ? & -> & ->)
  | H : setattr_cpu_index _ _ _ _ _ _ = (Ok _, _) |- _ =>
      apply setattr_cpu_index_Ok in H as (? & ? & ->)
  | H : copyTo _ _ _ _ = (Ok _, _) |- _ =>
      apply copyTo_Ok in H as (? & ? & -> & ? & ->)
  | H : get_gpu_index _ _ = (Ok _, _) |- _ =>
      apply get_gpu_index_Ok in H as (? & ? & ? & ->)
  | H : get_index_id_map _ _ = (Ok _, _) |- _ =>
      apply get_index_id_map_Ok in H as (? & ? & ? & ->)
  | H : set_index_id_map _ _ _ = (Ok _, _) |- _ =>
      apply set_index_id_map_Ok in H as (? & ? & ->)
  | H : set_wrapper_index _ _ _ _ = (Ok _, _) |- _ =>
      apply set_wrapper_index_Ok in H as (? & -> & ? & ->)
  | H : gpu_cleanup _ _ _ = (Ok _, _) |- _ =>
      apply gpu_cleanup_Ok in H as (? & ? & ? & ->)
  | H : new_cpu_output _ _ _ = (Ok _, _) |- _ =>
      apply new_cpu_output_Ok in H as [-> ->]
  end.

(** Reads the final store off the executed steps. *)
Ltac finish_converted :=
  simpl in *; simplify_map_eq;
  match goal with
  | Hb : builders ?w !! _ = Some ?b,
    Ho : gpu_outputs ?w !! _ = Some ?o,
    Hg : Some ?g = GpuOut.gpu_index ?o,
    Hm : Some ?m = GpuOut.index_id_map ?o,
    Hm' : Some ?m' = GpuOut.index_id_map ?o,
    Hw : is_Some (id_maps ?w !! ?m) |- _ =>
      assert (m' = m) as -> by congruence;
      exists b, o, g, m; simpl;
      rewrite <- Hg, <- Hm, ?insert_insert_eq, <- ?app_assoc;
      repeat split; auto
  end.

Lemma do_convert_try_Ok faiss self out w bundle w' :
  _do_convert_gpu_to_cpu_index_try faiss self out w = (Ok bundle, w') →
  converted StandardFamily self out w bundle w'.
Proof.
  intros H.
  unfold _do_convert_gpu_to_cpu_index_try, set_efConstruction, set_efSearch,
    set_base_level_only in H.
  repeat run_step. finish_converted.
Qed.

Lemma do_convert_binary_try_Ok faiss self out w bundle w' :
  _do_convert_gpu_to_cpu_binary_index_try faiss self out w = (Ok bundle, w') →
  converted BinaryFamily self out w bundle w'.
Proof.
  intros H.
  unfold _do_convert_gpu_to_cpu_binary_index_try, set_efConstruction,
    set_efSearch, set_base_level_only in H.
  repeat run_step. finish_converted.
Qed.

Lemma convert_Ok faiss self out w bundle w' :
  convert_gpu_to_cpu_index faiss self out w = (Ok bundle, w') →
  ∃ b, builders w !! self = Some b
    ∧ converted (selected_family b) self out w bundle w'.
Proof.
  unfold convert_gpu_to_cpu_index, selected_family. intros H.
  apply bind_Ok in H as (dtype & w1 & Hd & H).
  apply getattr_self_Ok in Hd as (b & Hb & -> & ->).
  exists b. split; [exact Hb|].
  destruct (py_ne (vector_dtype b) (VDataType BINARY)).
  - apply try_except_Ok in H. by apply do_convert_try_Ok in H.
  - apply try_except_Ok in H. by apply do_convert_binary_try_Ok in H.
Qed.

Lemma new_events_app w w' t :
  trace w' = (trace w ++ t)%list → new_events w w' = t.
Proof. unfold new_events. intros ->. apply drop_app_length. Qed.

Lemma occurrences_cons ev x tr :
  occurrences ev (x :: tr)
  = ((if decide (x = ev) then 1 else 0) + occurrences ev tr)%nat.
Proof.
  unfold occurrences. rewrite filter_cons. by case_decide.
Qed.

Lemma fresh_cpu_index_is_new w :
  fresh (dom (cpu_indexes w)) ∉ dom (cpu_indexes w).
Proof. apply is_fresh. Qed.

(** C5: when [convert_gpu_to_cpu_index] returns a bundle, the bundle holds
    a CPU index [c] that did not exist before the call and the wrapper [m]
    that the GPU bundle held; [m.index] is [c]; the GPU bundle's
    [index_id_map] is [None]; and the GPU bundle's [cleanup] was called once
    during the call, as its last action. *)
Theorem successful_conversion_transfers_wrapper
    (faiss : faiss_env) (self out : loc) (w w' : world) (bundle : loc) :
  convert_gpu_to_cpu_index faiss self out w = (Ok bundle, w') →
  ∃ (c m : loc) (o o' : GpuOut.t),
    (c ∉ dom (cpu_indexes w))
    ∧ is_Some (cpu_indexes w' !! c)
    ∧ gpu_outputs w !! out = Some o
    ∧ GpuOut.index_id_map o = Some m
    ∧ cpu_outputs w' !! bundle = Some (CpuOut.make (Some c) (Some m) false)
    ∧ id_maps w' !! m = Some (Some (CpuIndex c))
    ∧ gpu_outputs w' !! out = Some o'
    ∧ GpuOut.index_id_map o' = None
    ∧ occurrences (EvCleanup (GpuBundle out)) (new_events w w') = 1
    ∧ last (new_events w w') = Some (EvCleanup (GpuBundle out)).
Proof.
  intros H. apply convert_Ok in H as (b & Hb & H).
  destruct H as (b' & o & g & m & _ & Ho & Hg & Hm & Hrel & Hw & -> & _
                 & Hci & Him & Hgo & Hco & _ & Htr).
  apply new_events_app in Htr.
  exists (fresh (dom (cpu_indexes w))), m, o, (GpuOut.make (Some g) None true).
  rewrite Hci, Him, Hgo, Hco, Htr, !lookup_insert_eq.
  repeat split; auto using fresh_cpu_index_is_new.
  rewrite !occurrences_cons. repeat case_decide; by simplify_eq.
Qed.

(** C7: the CPU index of a returned bundle has [efSearch],
    [efConstruction] and [base_level_only] equal to the builder's
    [ef_search], [ef_construction] and [base_level_only], whatever these
    values and whatever the builder's [vector_dtype] (so in both
    branches). *)
Theorem conversion_copies_settings_verbatim
    (faiss : faiss_env) (self out : loc) (w w' : world) (bundle : loc)
    (b : FaissIndexHNSWCagraBuilder) :
  builders w !! self = Some b →
  convert_gpu_to_cpu_index faiss self out w = (Ok bundle, w') →
  ∃ (c : loc) (m : option loc) (i : IndexHNSWCagra.t),
    cpu_outputs w' !! bundle = Some (CpuOut.make (Some c) m false)
    ∧ cpu_indexes w' !! c = Some i
    ∧ IndexHNSWCagra.efSearch i = ef_search b
    ∧ IndexHNSWCagra.efConstruction i = ef_construction b
    ∧ IndexHNSWCagra.base_level_only i = base_level_only b.
Proof.
  intros Hself H. apply convert_Ok in H as (b0 & Hb & H).
  assert (b0 = b) as -> by congruence.
  destruct H as (b' & o & g & m & Hb' & _ & Hg & _ & _ & _ & -> & _
                 & Hci & _ & _ & Hco & _).
  assert (b' = b) as -> by congruence.
  eexists _, _, _. rewrite Hci, Hco, !lookup_insert_eq.
  repeat split; reflexivity.
Qed.

(** ** Runs of a write *)

Lemma cpu_cleanup_run faiss out w o :
  cpu_outputs w !! out = Some o →
  cpu_cleanup faiss out w =
    let w1 := log (EvCleanup (CpuBundle out)) w in
    if CpuOut.released o then (Raise double_release, w1)
    else match cleanup_raises faiss w1 (CpuBundle out) with
         | Some e => (Raise e, w1)
         | None =>
             (Ok (),
              put_cpu_output out
                (CpuOut.make (CpuOut.cpu_index o)
                   (CpuOut.index_id_map o) true) w1)
         end.
Proof.
  intros Ho. unfold cpu_cleanup. rewrite bind_run. unfold deref.
  rewrite Ho, bind_run. simpl.
  destruct (CpuOut.released o); [reflexivity|].
  rewrite bind_run. unfold may_raise.
  by destruct (cleanup_raises _ _ _).
Qed.

Lemma cpu_cleanup_trace faiss out w o :
  cpu_outputs w !! out = Some o →
  trace (cpu_cleanup faiss out w).2
  = (trace w ++ [EvCleanup (CpuBundle out)])%list.
Proof.
  intros Ho. rewrite (cpu_cleanup_run _ _ _ _ Ho). simpl.
  destruct (CpuOut.released o); [reflexivity|].
  by destruct (cleanup_raises _ _ _).
Qed.

Lemma faiss_write_run faiss fam m path w :
  faiss_write faiss fam m path w =
    let w1 := log (EvWrite fam m path) w in
    match write_raises faiss fam w1 m path with
    | Some e => (Raise e, w1)
    | None => (Ok (), put_file path (fam, m) w1)
    end.
Proof.
  unfold faiss_write, mbind, M_bind, may_raise, modify. simpl.
  by destruct (write_raises _ _ _ _ _).
Qed.

Lemma write_try_run faiss self out path w b o :
  builders w !! self = Some b →
  cpu_outputs w !! out = Some o →
  write_cpu_index_try faiss self out path w =
    let fam := selected_family b in
    let m := CpuOut.index_id_map o in
    let w1 := log (EvWrite fam m path) w in
    match write_raises faiss fam w1 m path with
    | Some e => (Raise e, w1)
    | None => cpu_cleanup faiss out (put_file path (fam, m) w1)
    end.
Proof.
  intros Hb Ho. unfold write_cpu_index_try, selected_family.
  rewrite bind_run, (getattr_self_run _ _ _ _ _ Hb), bind_run.
  assert (get_cpu_index_id_map out w = (Ok (CpuOut.index_id_map o), w))
    as Hget.
  { unfold get_cpu_index_id_map. rewrite bind_run. unfold deref.
    by rewrite Ho. }
  destruct (py_ne (vector_dtype b) (VDataType BINARY));
    rewrite bind_run, Hget, faiss_write_run; simpl;
    by destruct (write_raises _ _ _ _ _).
Qed.

Lemma try_except_trace {A} (body : M A) (h1 h2 : exc → exc)
    (test : exc → bool) w :
  trace (try_except body
           (λ e, if test e then raise (h1 e) else raise (h2 e)) w).2
  = trace (body w).2.
Proof.
  unfold try_except. destruct (body w) as [[a|e] w1]; [reflexivity|].
  by destruct (test e).
Qed.

(** The actions of a write: the writer call, followed by the bundle's
    [cleanup] exactly when the writer returned. *)
Lemma write_new_events faiss self out path w b o :
  builders w !! self = Some b →
  cpu_outputs w !! out = Some o →
  new_events w (write_cpu_index faiss self out path w).2
  = EvWrite (selected_family b) (CpuOut.index_id_map o) path
    :: match write_raises faiss (selected_family b)
               (log (EvWrite (selected_family b) (CpuOut.index_id_map o)
                       path) w)
               (CpuOut.index_id_map o) path with
       | Some _ => []
       | None => [EvCleanup (CpuBundle out)]
       end.
Proof.
  intros Hb Ho. apply new_events_app. unfold write_cpu_index.
  rewrite try_except_trace, (write_try_run _ _ _ _ _ _ _ Hb Ho). simpl.
  destruct (write_raises _ _ _ _ _); [reflexivity|].
  rewrite (cpu_cleanup_trace _ _ _ o) by exact Ho. simpl.
  by rewrite <- app_assoc.
Qed.

Lemma selected_family_of_dtype b d :
  vector_dtype b = VDataType d → selected_family b = family_of d.
Proof. unfold selected_family. intros ->. by destruct d. Qed.

(** C1, as the code has it: [write_cpu_index] calls the CPU bundle's
    [cleanup] once, right after the writer call, when the library's writer
    returns.  When the writer raises [e], [cleanup] is not called: the CPU
    bundles of the store are as they were, and the exception that
    [write_cpu_index] raises has [e] as its cause. *)
Theorem write_releases_bundle_when_writer_returns
    (faiss : faiss_env) (self out : loc) (path : string) (w : world)
    (b : FaissIndexHNSWCagraBuilder) (o : CpuOut.t) :
  builders w !! self = Some b →
  cpu_outputs w !! out = Some o →
  let fam := selected_family b in
  let m := CpuOut.index_id_map o in
  let run := write_cpu_index faiss self out path w in
  match write_raises faiss fam (log (EvWrite fam m path) w) m path with
  | None =>
      new_events w run.2 = [EvWrite fam m path; EvCleanup (CpuBundle out)]
      ∧ occurrences (EvCleanup (CpuBundle out)) (new_events w run.2) = 1
  | Some e =>
      occurrences (EvCleanup (CpuBundle out)) (new_events w run.2) = 0
      ∧ cpu_outputs run.2 = cpu_outputs w
      ∧ ∃ e', run.1 = Raise e' ∧ exc_cause e' = Some e
  end.
Proof.
  intros Hb Ho fam m run. subst fam m run.
  pose proof (write_new_events faiss self out path w b o Hb Ho) as Hev.
  assert (write_cpu_index faiss self out path w
          = try_except (write_cpu_index_try faiss self out path)
              (λ e, if isinstance_IOError e
                    then raise (write_failed path e)
                    else raise (write_unexpected e)) w) as Hrun
    by reflexivity.
  unfold try_except in Hrun.
  rewrite (write_try_run _ _ _ _ _ _ _ Hb Ho) in Hrun. cbv zeta in Hrun.
  destruct (write_raises faiss _ _ _ path) as [e|] eqn:Hw; rewrite Hev.
  - split; [|split].
    + rewrite !occurrences_cons. by case_decide.
    + rewrite Hrun. by destruct (isinstance_IOError e).
    + rewrite Hrun. destruct (isinstance_IOError e); eexists; split;
        reflexivity.
  - split; [reflexivity|].
    rewrite !occurrences_cons. repeat case_decide; by simplify_eq.
Qed.

(** C1 as stated fails: with a writer that cannot open the file, the write
    raises and the bundle's [cleanup] has not been called, so the bundle is
    still unreleased when the error propagates. *)
Lemma write_failure_leaves_bundle_unreleased :
  let w := sample_world FLOAT in
  let run :=
    write_cpu_index (failing_write_faiss could_not_open) 1 4
      "/nonexistent/index.faiss" w in
  run.1 = Raise (Exc PyException
                   ("Unexpected error while writing index to file: "
                    ++ str could_not_open) (Some could_not_open))
  ∧ occurrences (EvCleanup (CpuBundle 4)) (new_events w run.2) = 0
  ∧ occurrences (EvCleanup (CpuBundle 4)) (new_events w run.2) ≠ 1
  ∧ cpu_outputs run.2 !! 4%positive
    = Some (CpuOut.make (Some 2%positive) (Some 8%positive) false).
Proof. vm_compute. repeat split; discriminate. Qed.

(** C6: the builder's [vector_dtype] selects the family throughout.  With
    FLOAT a returned bundle holds a standard-family index, made by
    [faiss.IndexHNSWCagra], and a write calls [faiss.write_index] and no
    other writer; with BINARY the index is of the binary family, made by
    [faiss.IndexBinaryHNSWCagra], and the writer is
    [faiss.write_index_binary]. *)
Theorem dtype_selects_index_family_and_writer
    (faiss : faiss_env) (self gpu_out cpu_out : loc) (path : string)
    (w : world) (b : FaissIndexHNSWCagraBuilder) (d : DataType)
    (o : CpuOut.t) :
  builders w !! self = Some b →
  vector_dtype b = VDataType d →
  cpu_outputs w !! cpu_out = Some o →
  (∀ bundle w',
     convert_gpu_to_cpu_index faiss self gpu_out w = (Ok bundle, w') →
     ∃ (c : loc) (m : option loc) (i : IndexHNSWCagra.t),
       cpu_outputs w' !! bundle = Some (CpuOut.make (Some c) m false)
       ∧ cpu_indexes w' !! c = Some i
       ∧ IndexHNSWCagra.index_family i = family_of d
       ∧ head (new_events w w') = Some (EvNewIndex (family_of d) c))
  ∧ writer_calls
      (new_events w (write_cpu_index faiss self cpu_out path w).2)
    = [EvWrite (family_of d) (CpuOut.index_id_map o) path].
Proof.
  intros Hb Hd Ho. pose proof (selected_family_of_dtype b d Hd) as Hfam.
  split.
  - intros bundle w' H. apply convert_Ok in H as (b0 & Hb0 & H).
    assert (b0 = b) as -> by congruence. rewrite Hfam in H.
    destruct H as (b' & o' & g & m & _ & _ & _ & _ & _ & _ & -> & _
                   & Hci & _ & _ & Hco & _ & Htr).
    apply new_events_app in Htr.
    eexists _, _, _. rewrite Hci, Hco, Htr, !lookup_insert_eq.
    repeat split; reflexivity.
  - rewrite (write_new_events _ _ _ _ _ _ _ Hb Ho), Hfam.
    by destruct (write_raises _ _ _ _ _).
Qed.

(** ** Runs that raise *)

Lemma modify_never_raises {X} (f : world → X) g : keeps_on_raise f (modify g).
Proof. intros w e w'. unfold modify. discriminate. Qed.

Lemma mret_never_raises {X A} (f : world → X) (a : A) :
  keeps_on_raise f (mret a).
Proof. intros w e w'. unfold mret, M_ret. discriminate. Qed.

Lemma alloc_cpu_index_never_raises {X} (f : world → X) faiss fam :
  keeps_on_raise f (alloc_cpu_index faiss fam).
Proof. intros w e w'. unfold alloc_cpu_index. discriminate. Qed.

(** Decomposes the goal that a raising run leaves the store untouched. *)
Ltac untouched_step :=
  first
    [ apply modify_never_raises
    | apply mret_never_raises
    | apply alloc_cpu_index_never_raises
    | apply keeps_on_raise_of_keeps; solve [frame]
    | apply keeps_on_raise_bind; [solve [frame] | intros ?]
    | match goal with
      | |- keeps_on_raise _ (match ?o with Some _ => _ | None => _ end) =>
          destruct o
      end ].

Ltac untouched := repeat untouched_step.

Section Raises.
Variable faiss : faiss_env.

Lemma new_cpu_index_Raise fam w e w1 :
  new_cpu_index faiss fam w = (Raise e, w1) → w1 = w.
Proof.
  revert w e w1. change (keeps_on_raise id (new_cpu_index faiss fam)).
  unfold new_cpu_index. untouched.
Qed.

Lemma getattr_self_Raise self attr field w e w1 :
  getattr_self self attr field w = (Raise e, w1) → w1 = w.
Proof.
  revert w e w1. change (keeps_on_raise id (getattr_self self attr field)).
  unfold getattr_self. untouched.
Qed.

Lemma setattr_cpu_index_Raise c attr v upd w e w1 :
  setattr_cpu_index faiss c attr v upd w = (Raise e, w1) → w1 = w.
Proof.
  revert w e w1.
  change (keeps_on_raise id (setattr_cpu_index faiss c attr v upd)).
  unfold setattr_cpu_index. untouched.
Qed.

Lemma copyTo_Raise source c w e w1 :
  copyTo faiss source c w = (Raise e, w1) → w1 = w.
Proof.
  revert w e w1. change (keeps_on_raise id (copyTo faiss source c)).
  unfold copyTo. untouched.
Qed.

Lemma get_gpu_index_Raise out w e w1 :
  get_gpu_index out w = (Raise e, w1) → w1 = w.
Proof.
  revert w e w1. change (keeps_on_raise id (get_gpu_index out)).
  unfold get_gpu_index. untouched.
Qed.

Lemma get_index_id_map_Raise out w e w1 :
  get_index_id_map out w = (Raise e, w1) → w1 = w.
Proof.
  revert w e w1. change (keeps_on_raise id (get_index_id_map out)).
  unfold get_index_id_map. untouched.
Qed.

Lemma set_index_id_map_Raise out v w e w1 :
  set_index_id_map out v w = (Raise e, w1) → w1 = w.
Proof.
  revert w e w1. change (keeps_on_raise id (set_index_id_map out v)).
  unfold set_index_id_map. untouched.
Qed.

Lemma set_wrapper_index_Raise target v w e w1 :
  set_wrapper_index faiss target v w = (Raise e, w1) → w1 = w.
Proof.
  revert w e w1.
  change (keeps_on_raise id (set_wrapper_index faiss target v)).
  unfold set_wrapper_index. untouched.
Qed.

Lemma deref_Raise {V} (store : world → gmap loc V) l tn attr w e w1 :
  deref store l tn attr w = (Raise e, w1) → w1 = w.
Proof. unfold deref. destruct (store w !! l); by intros [= _ ->]. Qed.

Lemma may_raise_Raise oracle w e w1 :
  may_raise oracle w = (Raise e, w1) → w1 = w.
Proof. unfold may_raise. destruct (oracle w); by intros [= _ ->]. Qed.

(** A [cleanup] that raises has changed nothing but the trace, where it
    has recorded the call if the bundle exists. *)
Lemma gpu_cleanup_Raise out w e w1 :
  gpu_cleanup faiss out w = (Raise e, w1) →
  w1 = w ∨ w1 = log (EvCleanup (GpuBundle out)) w.
Proof.
  unfold gpu_cleanup. intros H.
  apply bind_Raise in H as [H | (o & w2 & Ho & H)].
  { left. by apply deref_Raise in H. }
  apply deref_Ok in Ho as [Ho ->]. right.
  apply bind_Raise in H as [H | (u & w3 & Hm & H)]; [discriminate H|].
  apply modify_Ok in Hm as ->.
  destruct (GpuOut.released o).
  { unfold raise in H. by simplify_eq. }
  apply bind_Raise in H as [H | (u' & w4 & Hm & H)]; [|discriminate H].
  by apply may_raise_Raise in H.
Qed.
End Raises.

(** ** The order of the relocation steps *)

(** One step of the symbolic execution of a conversion that raised. *)
Ltac raise_step :=
  match goal with
  | H : (_ ≫= _) _ = (Raise _, _) |- _ =>
      apply bind_Raise in H as [H | (? & ? & ? & H)]
  | H : new_cpu_index _ _ _ = (Raise _, _) |- _ =>
      apply new_cpu_index_Raise in H as ->
  | H : getattr_self _ _ _ _ = (Raise _, _) |- _ =>
      apply getattr_self_Raise in H as ->
  | H : setattr_cpu_index _ _ _ _ _ _ = (Raise _, _) |- _ =>
      apply setattr_cpu_index_Raise in H as ->
  | H : copyTo _ _ _ _ = (Raise _, _) |- _ =>
      apply copyTo_Raise in H as ->
  | H : get_gpu_index _ _ = (Raise _, _) |- _ =>
      apply get_gpu_index_Raise in H as ->
  | H : get_index_id_map _ _ = (Raise _, _) |- _ =>
      apply get_index_id_map_Raise in H as ->
  | H : set_index_id_map _ _ _ = (Raise _, _) |- _ =>
      apply set_index_id_map_Raise in H as ->
  | H : set_wrapper_index _ _ _ _ = (Raise _, _) |- _ =>
      apply set_wrapper_index_Raise in H as ->
  | H : gpu_cleanup _ _ _ = (Raise _, _) |- _ =>
      apply gpu_cleanup_Raise in H as [-> | ->]
  | H : new_cpu_output _ _ _ = (Raise _, _) |- _ => discriminate H
  end.

(** Closes the goal at the end of each path of a conversion that raised:
    the relocation actions done so far begin the expected ones. *)
Ltac finish_raised :=
  simpl in *; simplify_map_eq;
  eexists;
  (split;
   [ rewrite <- ?app_assoc; try (simpl; reflexivity);
     symmetry; apply app_nil_r
   | ]);
  try apply prefix_nil;
  unfold expected_relocation;
  repeat match goal with
    | Hm : Some ?m = GpuOut.index_id_map ?o,
      Hm' : Some ?m' = GpuOut.index_id_map ?o |- _ =>
        assert (m' = m) as -> by congruence; clear Hm'
    end;
  match goal with
  | Ho : gpu_outputs _ !! _ = Some ?o,
    Hm : Some ?m = GpuOut.index_id_map ?o |- _ =>
      rewrite Ho; simpl; rewrite <- Hm
  end;
  eexists; reflexivity.

Lemma do_convert_try_Raise_relocations faiss self out w e w' :
  _do_convert_gpu_to_cpu_index_try faiss self out w = (Raise e, w') →
  ∃ t, trace w' = (trace w ++ t)%list
    ∧ relocations t `prefix_of` expected_relocation out w.
Proof.
  intros H.
  unfold _do_convert_gpu_to_cpu_index_try, set_efConstruction, set_efSearch,
    set_base_level_only in H.
  repeat first [raise_step | run_step]; finish_raised.
Qed.

Lemma do_convert_binary_try_Raise_relocations faiss self out w e w' :
  _do_convert_gpu_to_cpu_binary_index_try faiss self out w = (Raise e, w') →
  ∃ t, trace w' = (trace w ++ t)%list
    ∧ relocations t `prefix_of` expected_relocation out w.
Proof.
  intros H.
  unfold _do_convert_gpu_to_cpu_binary_index_try, set_efConstruction,
    set_efSearch, set_base_level_only in H.
  repeat first [raise_step | run_step]; finish_raised.
Qed.

Lemma convert_Raise_relocations faiss self out w e w' :
  convert_gpu_to_cpu_index faiss self out w = (Raise e, w') →
  relocations (new_events w w') `prefix_of` expected_relocation out w.
Proof.
  unfold convert_gpu_to_cpu_index. intros H.
  assert (∃ t, trace w' = (trace w ++ t)%list
             ∧ relocations t `prefix_of` expected_relocation out w)
    as (t & Ht & Hpre).
  { apply bind_Raise in H as [H | (dtype & w1 & Hd & H)].
    - apply getattr_self_Raise in H as ->.
      exists []. split; [by rewrite app_nil_r | apply prefix_nil].
    - apply getattr_self_Ok in Hd as (b & _ & _ & ->).
      destruct (py_ne dtype (VDataType BINARY));
        apply try_except_Raise in H as (e0 & w2 & H & [= _ <-]).
      + by eapply do_convert_try_Raise_relocations.
      + by eapply do_convert_binary_try_Raise_relocations. }
  by rewrite (new_events_app _ _ _ Ht).
Qed.

(** C4: for a GPU bundle that holds the wrapper [m], the relocation actions
    of every conversion, finished or interrupted by an exception, are an
    initial part of the sequence: [m.index = None], then the bundle's
    [index_id_map = None], then [m.index = cpu_index].  The wrapper's single
    [index] attribute is thus emptied before it receives the CPU index.  A
    conversion that returns has done all three in this order; afterwards [m]
    references the CPU index created by the call, hence no GPU index, and
    the GPU bundle no longer holds [m]. *)
Theorem relocation_steps_in_order
    (faiss : faiss_env) (self out : loc) (w w' : world) (o : GpuOut.t)
    (m : loc) (r : result loc) :
  gpu_outputs w !! out = Some o →
  GpuOut.index_id_map o = Some m →
  convert_gpu_to_cpu_index faiss self out w = (r, w') →
  let c := fresh (dom (cpu_indexes w)) in
  relocations (new_events w w')
    `prefix_of` [EvSetWrapperIndex m None; EvSetBundleWrapper out None;
                 EvSetWrapperIndex m (Some (CpuIndex c))]
  ∧ match r with
    | Ok _ =>
        relocations (new_events w w')
          = [EvSetWrapperIndex m None; EvSetBundleWrapper out None;
             EvSetWrapperIndex m (Some (CpuIndex c))]
        ∧ (c ∉ dom (cpu_indexes w))
        ∧ id_maps w' !! m = Some (Some (CpuIndex c))
        ∧ (∀ g, id_maps w' !! m ≠ Some (Some (GpuIndex g)))
        ∧ ∃ o', gpu_outputs w' !! out = Some o'
                ∧ GpuOut.index_id_map o' = None
    | Raise _ => True
    end.
Proof.
  intros Ho Hm Hrun c.
  assert (expected_relocation out w
          = [EvSetWrapperIndex m None; EvSetBundleWrapper out None;
             EvSetWrapperIndex m (Some (CpuIndex c))]) as Hexp.
  { unfold expected_relocation. rewrite Ho. simpl. by rewrite Hm. }
  destruct r as [bundle|e].
  - apply convert_Ok in Hrun as (b & _ & Hc).
    destruct Hc as (b' & o0 & g & m0 & _ & Ho0 & _ & Hm0 & _ & _ & _ & _
                    & _ & Him & Hgo & _ & _ & Htr).
    assert (o0 = o) as -> by congruence.
    assert (m0 = m) as -> by congruence.
    rewrite (new_events_app _ _ _ Htr), Him, Hgo, !lookup_insert_eq.
    repeat split; try done.
    + apply fresh_cpu_index_is_new.
    + by eexists.
  - split; [|done]. rewrite <- Hexp. by eapply convert_Raise_relocations.
Qed.

(** ** The theorems at concrete inputs *)

(** The scenario of the spec: a conversion with [ef_search = 50],
    [ef_construction = 200], [base_level_only = False], followed by a write
    of the returned bundle. *)
Example convert_then_write :
  let w1 := sample_converted FLOAT in
  let run := write_cpu_index quiet_faiss 1 5 "/tmp/index.faiss" w1 in
  id_maps w1 !! 7%positive = Some (Some (CpuIndex 3))
  ∧ cpu_indexes w1 !! 3%positive
    = Some (IndexHNSWCagra.make StandardFamily (VInt 200) (VInt 50)
              (VBool false) (Some 9%positive))
  ∧ run.1 = Ok ()
  ∧ files run.2 !! "/tmp/index.faiss" = Some (StandardFamily, Some 7%positive)
  ∧ trace run.2
    = [EvNewIndex StandardFamily 3; EvCopyTo 9 3; EvSetWrapperIndex 7 None;
       EvSetBundleWrapper 5 None; EvSetWrapperIndex 7 (Some (CpuIndex 3));
       EvCleanup (GpuBundle 5);
       EvWrite StandardFamily (Some 7%positive) "/tmp/index.faiss";
       EvCleanup (CpuBundle 5)].
Proof. vm_compute. repeat split; reflexivity. Qed.

Lemma write_releases_bundle_when_writer_returns_witness :
  builders (sample_world FLOAT) !! 1%positive = Some (sample_builder FLOAT)
  ∧ cpu_outputs (sample_world FLOAT) !! 4%positive
    = Some (CpuOut.make (Some 2%positive) (Some 8%positive) false)
  ∧ new_events (sample_world FLOAT)
      (write_cpu_index quiet_faiss 1 4 "/tmp/index.faiss"
         (sample_world FLOAT)).2
    = [EvWrite StandardFamily (Some 8%positive) "/tmp/index.faiss";
       EvCleanup (CpuBundle 4)]
  ∧ occurrences (EvCleanup (CpuBundle 4))
      (new_events (sample_world FLOAT)
         (write_cpu_index quiet_faiss 1 4 "/tmp/index.faiss"
            (sample_world FLOAT)).2) = 1.
Proof.
  split; [reflexivity|]. split; [reflexivity|].
  exact (write_releases_bundle_when_writer_returns quiet_faiss 1 4
           "/tmp/index.faiss" (sample_world FLOAT) (sample_builder FLOAT)
           (CpuOut.make (Some 2%positive) (Some 8%positive) false)
           eq_refl eq_refl).
Defined.


Lemma sample_write_failure (e0 : exc) (e : exc) :
  e = (if isinstance_IOError e0
       then write_failed "/nonexistent/index.faiss" e0
       else write_unexpected e0) →
  write_cpu_index (failing_write_faiss e0) 1 4 "/nonexistent/index.faiss"
    (sample_world FLOAT)
  = (Raise e, sample_write_failed e0).
Proof.
  intros ->. unfold sample_write_failed, write_cpu_index, try_except.
  rewrite (write_try_run (failing_write_faiss e0) 1 4
             "/nonexistent/index.faiss" (sample_world FLOAT)
             (sample_builder FLOAT)
             (CpuOut.make (Some 2%positive) (Some 8%positive) false)
             eq_refl eq_refl).
  simpl. by destruct (isinstance_IOError e0).
Defined.

Lemma write_failure_text_follows_exception_class_witness :
  write_cpu_index (failing_write_faiss no_such_directory) 1 4
    "/nonexistent/index.faiss" (sample_world FLOAT)
  = (Raise (write_failed "/nonexistent/index.faiss" no_such_directory),
     sample_write_failed no_such_directory)
  ∧ write_cpu_index (failing_write_faiss could_not_open) 1 4
      "/nonexistent/index.faiss" (sample_world FLOAT)
    = (Raise (write_unexpected could_not_open),
       sample_write_failed could_not_open)
  ∧ (∃ e0,
       write_cpu_index_try (failing_write_faiss no_such_directory) 1 4
         "/nonexistent/index.faiss" (sample_world FLOAT)
       = (Raise e0, sample_write_failed no_such_directory)
       ∧ exc_cause (write_failed "/nonexistent/index.faiss" no_such_directory)
         = Some e0)
  ∧ (∃ e0,
       write_cpu_index_try (failing_write_faiss could_not_open) 1 4
         "/nonexistent/index.faiss" (sample_world FLOAT)
       = (Raise e0, sample_write_failed could_not_open)
       ∧ exc_cause (write_unexpected could_not_open) = Some e0).
Proof.
  pose proof (sample_write_failure no_such_directory _ eq_refl) as Hio.
  pose proof (sample_write_failure could_not_open _ eq_refl) as Hrt.
  split; [exact Hio|]. split; [exact Hrt|]. split.
  - destruct (write_failure_text_follows_exception_class _ _ _ _ _ _ _ Hio)
      as (e0 & Hbody & _ & Hcause & _).
    exists e0. split; [exact Hbody | exact Hcause].
  - destruct (write_failure_text_follows_exception_class _ _ _ _ _ _ _ Hrt)
      as (e0 & Hbody & _ & Hcause & _).
    exists e0. split; [exact Hbody | exact Hcause].
Defined.

Lemma sample_conversion_returns (d : DataType) :
  convert_gpu_to_cpu_index quiet_faiss 1 5 (sample_world d)
  = (Ok 5%positive, sample_converted d).
Proof. destruct d; vm_compute; reflexivity. Defined.

Lemma relocation_steps_in_order_witness :
  gpu_outputs (sample_world FLOAT) !! 5%positive
  = Some (GpuOut.make (Some 9%positive) (Some 7%positive) false)
  ∧ convert_gpu_to_cpu_index quiet_faiss 1 5 (sample_world FLOAT)
    = (Ok 5%positive, sample_converted FLOAT)
  ∧ relocations (new_events (sample_world FLOAT) (sample_converted FLOAT))
    = [EvSetWrapperIndex 7 None; EvSetBundleWrapper 5 None;
       EvSetWrapperIndex 7 (Some (CpuIndex 3))]
  ∧ id_maps (sample_converted FLOAT) !! 7%positive
    = Some (Some (CpuIndex 3)).
Proof.
  split; [reflexivity|]. split; [apply sample_conversion_returns|].
  pose proof (relocation_steps_in_order quiet_faiss 1 5 (sample_world FLOAT)
                (sample_converted FLOAT)
                (GpuOut.make (Some 9%positive) (Some 7%positive) false)
                7%positive (Ok 5%positive) eq_refl eq_refl
                (sample_conversion_returns FLOAT)) as (_ & Hall & _ & Hm & _).
  split; [exact Hall | exact Hm].
Defined.

Lemma successful_conversion_transfers_wrapper_witness :
  convert_gpu_to_cpu_index quiet_faiss 1 5 (sample_world BINARY)
  = (Ok 5%positive, sample_converted BINARY)
  ∧ ∃ (c m : loc) (o o' : GpuOut.t),
      (c ∉ dom (cpu_indexes (sample_world BINARY)))
      ∧ is_Some (cpu_indexes (sample_converted BINARY) !! c)
      ∧ gpu_outputs (sample_world BINARY) !! 5%positive = Some o
      ∧ GpuOut.index_id_map o = Some m
      ∧ cpu_outputs (sample_converted BINARY) !! 5%positive
        = Some (CpuOut.make (Some c) (Some m) false)
      ∧ id_maps (sample_converted BINARY) !! m = Some (Some (CpuIndex c))
      ∧ gpu_outputs (sample_converted BINARY) !! 5%positive = Some o'
      ∧ GpuOut.index_id_map o' = None
      ∧ occurrences (EvCleanup (GpuBundle 5))
          (new_events (sample_world BINARY) (sample_converted BINARY)) = 1
      ∧ last (new_events (sample_world BINARY) (sample_converted BINARY))
        = Some (EvCleanup (GpuBundle 5)).
Proof.
  split; [apply sample_conversion_returns|].
  exact (successful_conversion_transfers_wrapper quiet_faiss 1 5
           (sample_world BINARY) (sample_converted BINARY) 5
           (sample_conversion_returns BINARY)).
Defined.

Lemma dtype_selects_index_family_and_writer_witness :
  builders (sample_world BINARY) !! 1%positive = Some (sample_builder BINARY)
  ∧ vector_dtype (sample_builder BINARY) = VDataType BINARY
  ∧ cpu_outputs (sample_world BINARY) !! 4%positive
    = Some (CpuOut.make (Some 2%positive) (Some 8%positive) false)
  ∧ (∃ (c : loc) (m : option loc) (i : IndexHNSWCagra.t),
       cpu_outputs (sample_converted BINARY) !! 5%positive
       = Some (CpuOut.make (Some c) m false)
       ∧ cpu_indexes (sample_converted BINARY) !! c = Some i
       ∧ IndexHNSWCagra.index_family i = BinaryFamily
       ∧ head (new_events (sample_world BINARY) (sample_converted BINARY))
         = Some (EvNewIndex BinaryFamily c))
  ∧ writer_calls
      (new_events (sample_world BINARY)
         (write_cpu_index quiet_faiss 1 4 "/tmp/index.faiss"
            (sample_world BINARY)).2)
    = [EvWrite BinaryFamily (Some 8%positive) "/tmp/index.faiss"].
Proof.
  split; [reflexivity|]. split; [reflexivity|]. split; [reflexivity|].
  pose proof (dtype_selects_index_family_and_writer quiet_faiss 1 5 4
                "/tmp/index.faiss" (sample_world BINARY)
                (sample_builder BINARY) BINARY
                (CpuOut.make (Some 2%positive) (Some 8%positive) false)
                eq_refl eq_refl eq_refl) as [Hconv Hwrite].
  split; [|exact Hwrite].
  exact (Hconv 5%positive (sample_converted BINARY)
           (sample_conversion_returns BINARY)).
Defined.

Lemma conversion_copies_settings_verbatim_witness :
  builders (sample_world FLOAT) !! 1%positive = Some (sample_builder FLOAT)
  ∧ convert_gpu_to_cpu_index quiet_faiss 1 5 (sample_world FLOAT)
    = (Ok 5%positive, sample_converted FLOAT)
  ∧ ∃ (c : loc) (m : option loc) (i : IndexHNSWCagra.t),
      cpu_outputs (sample_converted FLOAT) !! 5%positive
      = Some (CpuOut.make (Some c) m false)
      ∧ cpu_indexes (sample_converted FLOAT) !! c = Some i
      ∧ IndexHNSWCagra.efSearch i = VInt 50
      ∧ IndexHNSWCagra.efConstruction i = VInt 200
      ∧ IndexHNSWCagra.base_level_only i = VBool false.
Proof.
  split; [reflexivity|]. split; [apply sample_conversion_returns|].
  exact (conversion_copies_settings_verbatim quiet_faiss 1 5
           (sample_world FLOAT) (sample_converted FLOAT) 5
           (sample_builder FLOAT) eq_refl (sample_conversion_returns FLOAT)).
Defined.

Lemma sample_params_keys k :
  k ∈ dom sample_params →
  k = "ef_search" ∨ k = "ef_construction" ∨ k = "base_level_only"
  ∨ k = "vector_dtype".
Proof.
  unfold sample_params. rewrite !dom_insert_L, dom_singleton_L.
  rewrite !elem_of_union, !elem_of_singleton. tauto.
Defined.

Lemma from_dict_defaults_and_unknown_keys_witness :
  (∃ b, from_dict (Some sample_params) = Ok b
     ∧ ef_search b = VInt 50
     ∧ ef_construction b = VInt 200
     ∧ base_level_only b = VBool false
     ∧ vector_dtype b = VDataType FLOAT)
  ∧ (∃ e, from_dict (Some (<["nlist" := VInt 4]> sample_params)) = Raise e
       ∧ exc_cls e = PyTypeError).
Proof.
  split.
  - exact (proj1 (from_dict_defaults_and_unknown_keys sample_params)
             sample_params_keys).
  - apply (proj2 (from_dict_defaults_and_unknown_keys
                    (<["nlist" := VInt 4]> sample_params)) "nlist").
    + rewrite dom_insert_L. apply elem_of_union_l, elem_of_singleton.
      reflexivity.
    + discriminate.
    + discriminate.
    + discriminate.
    + discriminate.
Defined.

(** * Further properties of the conversion and of the write *)

(** ** Conversions that raise *)

Ltac stage_facts :=
  split; [reflexivity|];
  split; simpl; rewrite ?insert_insert_eq; reflexivity.

(** Closes the goal at the end of each path of a conversion that raised, by
    reading the store off the executed steps. *)
Ltac finish_interrupted :=
  simpl in *; simplify_map_eq; unfold interrupted; simpl;
  repeat match goal with
    | Hm : Some ?m = GpuOut.index_id_map ?o,
      Hm' : Some ?m' = GpuOut.index_id_map ?o |- _ =>
        assert (m' = m) as -> by congruence; clear Hm'
    end;
  eexists;
  (split;
   [ rewrite <- ?app_assoc; try (simpl; reflexivity);
     symmetry; apply app_nil_r
   | ]);
  do 3 (split; [reflexivity|]);
  first
    [ left; solve [stage_facts]
    | right;
      match goal with
      | Ho : gpu_outputs _ !! _ = Some ?o,
        Hm : Some ?m = GpuOut.index_id_map ?o |- _ =>
          exists o, m; simpl; split; [exact Ho|]; split; [by symmetry|]
      end;
      first [ left; solve [stage_facts]
            | right; left; solve [stage_facts]
            | right; right; solve [stage_facts] ] ].

Lemma do_convert_try_Raise_interrupted faiss self out w e w' :
  _do_convert_gpu_to_cpu_index_try faiss self out w = (Raise e, w') →
  interrupted out w w'.
Proof.
  intros H.
  unfold _do_convert_gpu_to_cpu_index_try, set_efConstruction, set_efSearch,
    set_base_level_only in H.
  repeat first [raise_step | run_step]; finish_interrupted.
Qed.

Lemma do_convert_binary_try_Raise_interrupted faiss self out w e w' :
  _do_convert_gpu_to_cpu_binary_index_try faiss self out w = (Raise e, w') →
  interrupted out w w'.
Proof.
  intros H.
  unfold _do_convert_gpu_to_cpu_binary_index_try, set_efConstruction,
    set_efSearch, set_base_level_only in H.
  repeat first [raise_step | run_step]; finish_interrupted.
Qed.

Lemma convert_Raise_interrupted faiss self out w e w' :
  convert_gpu_to_cpu_index faiss self out w = (Raise e, w') →
  interrupted out w w'.
Proof.
  unfold convert_gpu_to_cpu_index. intros H.
  apply bind_Raise in H as [H | (dtype & w1 & Hd & H)].
  - apply getattr_self_Raise in H as ->.
    exists []. rewrite app_nil_r. repeat split; try reflexivity.
    left. by repeat split.
  - apply getattr_self_Ok in Hd as (b & _ & _ & ->).
    destruct (py_ne dtype (VDataType BINARY));
      apply try_except_Raise in H as (e0 & w2 & H & [= _ <-]).
    + by eapply do_convert_try_Raise_interrupted.
    + by eapply do_convert_binary_try_Raise_interrupted.
Qed.

Lemma relocations_elem ev tr :
  ev ∈ tr → is_relocation ev = true → ev ∈ relocations tr.
Proof.
  intros Hin Hrel. apply list_elem_of_In, filter_In.
  split; [by apply list_elem_of_In | exact Hrel].
Qed.

(** X1: a GPU bundle whose [index_id_map] is [None] cannot be converted:
    whatever the library does, [convert_gpu_to_cpu_index] raises, having
    relocated nothing and changed no GPU bundle, wrapper or CPU bundle. *)
Theorem conversion_without_wrapper_raises
    (faiss : faiss_env) (self out : loc) (w : world) (o : GpuOut.t) :
  gpu_outputs w !! out = Some o →
  GpuOut.index_id_map o = None →
  ∃ e w',
    convert_gpu_to_cpu_index faiss self out w = (Raise e, w')
    ∧ relocations (new_events w w') = []
    ∧ gpu_outputs w' = gpu_outputs w
    ∧ id_maps w' = id_maps w
    ∧ cpu_outputs w' = cpu_outputs w.
Proof.
  intros Ho Hnone.
  destruct (convert_gpu_to_cpu_index faiss self out w) as [[bundle|e] w']
    eqn:Hrun.
  - apply convert_Ok in Hrun as (b & _ & Hc).
    destruct Hc as (b' & o0 & g & m & _ & Ho0 & _ & Hm0 & _).
    congruence.
  - exists e, w'. split; [reflexivity|].
    apply convert_Raise_interrupted in Hrun
      as (t & Ht & _ & Hco & _ & [(Hrel & Hgo & Him) | (o0 & m & Ho0 & Hm & _)]).
    + by rewrite (new_events_app _ _ _ Ht).
    + congruence.
Qed.

(** X2: a conversion consumes its GPU bundle.  After a conversion that
    returned, converting the same bundle again raises, with any library and
    any builder, and leaves the wrappers, the GPU bundles and the CPU bundles
    as the first conversion left them. *)
Theorem second_conversion_raises
    (faiss faiss2 : faiss_env) (self self2 out : loc) (w w1 : world)
    (bundle : loc) :
  convert_gpu_to_cpu_index faiss self out w = (Ok bundle, w1) →
  ∃ e w2,
    convert_gpu_to_cpu_index faiss2 self2 out w1 = (Raise e, w2)
    ∧ gpu_outputs w2 = gpu_outputs w1
    ∧ id_maps w2 = id_maps w1
    ∧ cpu_outputs w2 = cpu_outputs w1.
Proof.
  intros H1. apply convert_Ok in H1 as (b & _ & Hc).
  destruct Hc as (b' & o & g & m & _ & _ & _ & _ & _ & _ & _ & _ & _ & _
                  & Hgo & _).
  assert (gpu_outputs w1 !! out = Some (GpuOut.make (Some g) None true))
    as Hout by (by rewrite Hgo, lookup_insert_eq).
  destruct (convert_gpu_to_cpu_index faiss2 self2 out w1) as [[b2|e] w2]
    eqn:Hrun.
  - apply convert_Ok in Hrun as (b0 & _ & Hc).
    destruct Hc as (b1 & o0 & g0 & m0 & _ & Ho0 & _ & Hm0 & _).
    rewrite Hout in Ho0. by simplify_eq.
  - exists e, w2. split; [reflexivity|].
    apply convert_Raise_interrupted in Hrun
      as (t & _ & _ & Hco & _ & [(_ & Hg2 & Him) | (o0 & m0 & Ho0 & Hm0 & _)]).
    + done.
    + rewrite Hout in Ho0. by simplify_eq.
Qed.

(** X3: a conversion that raises before its first relocation assignment
    (the index could not be created or configured, or the copy failed)
    leaves every GPU bundle, wrapper and CPU bundle as it was: the GPU
    bundle is intact. *)
Theorem early_failure_leaves_bundle_intact
    (faiss : faiss_env) (self out : loc) (w w' : world) (e : exc) :
  convert_gpu_to_cpu_index faiss self out w = (Raise e, w') →
  relocations (new_events w w') = [] →
  gpu_outputs w' = gpu_outputs w
  ∧ id_maps w' = id_maps w
  ∧ cpu_outputs w' = cpu_outputs w.
Proof.
  intros Hrun Hnone.
  apply convert_Raise_interrupted in Hrun
    as (t & Ht & _ & Hco & _ & Hstage).
  rewrite (new_events_app _ _ _ Ht) in Hnone.
  destruct Hstage as [(_ & Hgo & Him) | (o & m & _ & _ & Hstage)]; [done|].
  destruct Hstage as [(Hrel & _) | [(Hrel & _) | (Hrel & _)]];
    rewrite Hrel in Hnone; discriminate.
Qed.

(** X4: nothing is rolled back.  A conversion that raises after it has
    cleared the bundle's [index_id_map] leaves the bundle without its
    wrapper, the wrapper pointing at nothing or at the new CPU index, and no
    CPU bundle that holds the wrapper. *)
Theorem late_failure_is_not_rolled_back
    (faiss : faiss_env) (self out : loc) (w w' : world) (e : exc) :
  convert_gpu_to_cpu_index faiss self out w = (Raise e, w') →
  EvSetBundleWrapper out None ∈ new_events w w' →
  ∃ (o : GpuOut.t) (m : loc),
    gpu_outputs w !! out = Some o
    ∧ GpuOut.index_id_map o = Some m
    ∧ gpu_outputs w' !! out
      = Some (GpuOut.make (GpuOut.gpu_index o) None (GpuOut.released o))
    ∧ (id_maps w' !! m = Some None
       ∨ id_maps w' !! m
         = Some (Some (CpuIndex (fresh (dom (cpu_indexes w))))))
    ∧ cpu_outputs w' = cpu_outputs w.
Proof.
  intros Hrun Hin.
  apply convert_Raise_interrupted in Hrun
    as (t & Ht & _ & Hco & _ & Hstage).
  rewrite (new_events_app _ _ _ Ht) in Hin.
  apply relocations_elem in Hin; [|reflexivity].
  destruct Hstage as [(Hrel & _) | (o & m & Ho & Hm & Hstage)].
  { rewrite Hrel in Hin. by apply elem_of_nil in Hin. }
  exists o, m. split; [exact Ho|]. split; [exact Hm|].
  destruct Hstage as [(Hrel & _) | [(_ & Hgo & Him) | (_ & Hgo & Him)]].
  - rewrite Hrel in Hin. apply list_elem_of_singleton in Hin. discriminate.
  - rewrite Hgo, Him, !lookup_insert_eq. auto.
  - rewrite Hgo, Him, !lookup_insert_eq. auto.
Qed.

(** ** What a conversion that returns leaves alone *)

(** X5: a conversion that returns has changed only its own objects: every
    other wrapper, every other GPU bundle, every CPU index and CPU bundle
    that existed before and every file are as they were, and the returned
    bundle is a new object. *)
Theorem conversion_touches_only_its_bundle
    (faiss : faiss_env) (self out : loc) (w w' : world) (bundle : loc)
    (o : GpuOut.t) (m : loc) :
  convert_gpu_to_cpu_index faiss self out w = (Ok bundle, w') →
  gpu_outputs w !! out = Some o →
  GpuOut.index_id_map o = Some m →
  (∀ m', m' ≠ m → id_maps w' !! m' = id_maps w !! m')
  ∧ (∀ out', out' ≠ out → gpu_outputs w' !! out' = gpu_outputs w !! out')
  ∧ (∀ c', c' ∈ dom (cpu_indexes w) →
       cpu_indexes w' !! c' = cpu_indexes w !! c')
  ∧ (∀ b', b' ∈ dom (cpu_outputs w) →
       cpu_outputs w' !! b' = cpu_outputs w !! b')
  ∧ (bundle ∉ dom (cpu_outputs w))
  ∧ files w' = files w.
Proof.
  intros Hrun Ho Hm. apply convert_Ok in Hrun as (b & _ & Hc).
  destruct Hc as (b0 & o0 & g & m0 & _ & Ho0 & _ & Hm0 & _ & _ & -> & _
                  & Hci & Him & Hgo & Hco & Hf & _).
  assert (o0 = o) as -> by congruence.
  assert (m0 = m) as -> by congruence.
  rewrite Hci, Him, Hgo, Hco.
  repeat split; try done.
  - intros m' Hne. by rewrite lookup_insert_ne.
  - intros out' Hne. by rewrite lookup_insert_ne.
  - intros c' Hin. rewrite lookup_insert_ne; [done|].
    intros <-. by apply fresh_cpu_index_is_new in Hin.
  - intros b' Hin. rewrite lookup_insert_ne; [done|].
    intros <-. by apply is_fresh in Hin.
  - apply is_fresh.
Qed.

(** ** Writes *)

Lemma cpu_cleanup_keeps_files faiss out : keeps files (cpu_cleanup faiss out).
Proof. unfold cpu_cleanup. frame. Qed.

(** X6: [cleanup] runs inside the [try] block.  When the writer has
    returned and the bundle's [cleanup] then raises [e], [write_cpu_index]
    reports [e] as a failure to write (with the file message for an
    [IOError], the unexpected-error message otherwise), although the file
    has been written. *)
Theorem cleanup_failure_reported_as_write_failure
    (faiss : faiss_env) (self out : loc) (path : string) (w w' : world)
    (b : FaissIndexHNSWCagraBuilder) (o : CpuOut.t) (e : exc) :
  builders w !! self = Some b →
  cpu_outputs w !! out = Some o →
  let fam := selected_family b in
  let m := CpuOut.index_id_map o in
  let w1 := log (EvWrite fam m path) w in
  write_raises faiss fam w1 m path = None →
  cpu_cleanup faiss out (put_file path (fam, m) w1) = (Raise e, w') →
  write_cpu_index faiss self out path w
  = (Raise (Exc PyException
              (if isinstance_IOError e
               then "Failed to write index to file " ++ path ++ ": " ++ str e
               else "Unexpected error while writing index to file: "
                    ++ str e)
              (Some e)), w')
  ∧ files w' !! path = Some (fam, m).
Proof.
  intros Hb Ho fam m w1 Hw Hclean. subst fam m w1. split.
  - unfold write_cpu_index, try_except.
    rewrite (write_try_run _ _ _ _ _ _ _ Hb Ho). cbv zeta.
    rewrite Hw, Hclean. by destruct (isinstance_IOError e).
  - pose proof (cpu_cleanup_keeps_files faiss out
                  (put_file path (selected_family b, CpuOut.index_id_map o)
                     (log (EvWrite (selected_family b)
                             (CpuOut.index_id_map o) path) w))) as Hfiles.
    rewrite Hclean in Hfiles. simpl in Hfiles.
    by rewrite Hfiles, lookup_insert_eq.
Qed.

(** X7: when [write_cpu_index] returns, the file at the given path holds
    the bundle's wrapper in the format selected by the builder's
    [vector_dtype], no other file has changed, and the call has done two
    things in this order: the writer call, then the bundle's [cleanup]. *)
Theorem returned_write_has_written_the_file
    (faiss : faiss_env) (self out : loc) (path : string) (w w' : world)
    (u : ()) :
  write_cpu_index faiss self out path w = (Ok u, w') →
  ∃ (b : FaissIndexHNSWCagraBuilder) (o : CpuOut.t),
    builders w !! self = Some b
    ∧ cpu_outputs w !! out = Some o
    ∧ files w'
      = <[path := (selected_family b, CpuOut.index_id_map o)]> (files w)
    ∧ new_events w w'
      = [EvWrite (selected_family b) (CpuOut.index_id_map o) path;
         EvCleanup (CpuBundle out)].
Proof.
  intros H. unfold write_cpu_index, try_except in H.
  destruct (write_cpu_index_try faiss self out path w) as [[u0|e0] w1]
    eqn:Hbody; [|by destruct (isinstance_IOError e0)].
  injection H as _ ->.
  unfold write_cpu_index_try in Hbody.
  apply bind_Ok in Hbody as (dtype & w2 & Hd & Hbody).
  apply getattr_self_Ok in Hd as (b & Hb & -> & ->).
  apply bind_Ok in Hbody as (u1 & w3 & Hwrite & Hclean).
  exists b.
  assert (∃ o, cpu_outputs w !! out = Some o
             ∧ w3 = put_file path (selected_family b, CpuOut.index_id_map o)
                      (log (EvWrite (selected_family b)
                              (CpuOut.index_id_map o) path) w))
    as (o & Ho & ->).
  { unfold selected_family.
    destruct (py_ne (vector_dtype b) (VDataType BINARY));
      unfold get_cpu_index_id_map, faiss_write in Hwrite; exec; eauto. }
  pose proof (cpu_cleanup_keeps_files faiss out
                (put_file path (selected_family b, CpuOut.index_id_map o)
                   (log (EvWrite (selected_family b)
                           (CpuOut.index_id_map o) path) w))) as Hfiles.
  pose proof (cpu_cleanup_trace faiss out
                (put_file path (selected_family b, CpuOut.index_id_map o)
                   (log (EvWrite (selected_family b)
                           (CpuOut.index_id_map o) path) w)) o Ho) as Htrace.
  rewrite Hclean in Hfiles, Htrace. simpl in Hfiles, Htrace.
  exists o. repeat split; try done.
  apply new_events_app. by rewrite Htrace, <- app_assoc.
Qed.

(** ** The two methods together *)

(** X8: the write of a bundle that the same builder's conversion returned
    calls the writer of the family of the bundle's index, and passes it the
    wrapper that the GPU bundle held, which by then references that
    index. *)
Theorem write_after_conversion_is_consistent
    (faiss faiss2 : faiss_env) (self out : loc) (path : string)
    (w w1 : world) (bundle : loc) (o : GpuOut.t) :
  convert_gpu_to_cpu_index faiss self out w = (Ok bundle, w1) →
  gpu_outputs w !! out = Some o →
  ∃ (m c : loc) (i : IndexHNSWCagra.t),
    GpuOut.index_id_map o = Some m
    ∧ id_maps w1 !! m = Some (Some (CpuIndex c))
    ∧ cpu_indexes w1 !! c = Some i
    ∧ writer_calls
        (new_events w1 (write_cpu_index faiss2 self bundle path w1).2)
      = [EvWrite (IndexHNSWCagra.index_family i) (Some m) path].
Proof.
  intros Hrun Ho. apply convert_Ok in Hrun as (b & Hb & Hc).
  destruct Hc as (b' & o0 & g & m & _ & Ho0 & _ & Hm & _ & _ & -> & Hbs
                  & Hci & Him & _ & Hco & _).
  assert (o0 = o) as -> by congruence.
  eexists m, _, _. split; [exact Hm|].
  rewrite Him, Hci, !lookup_insert_eq. split; [reflexivity|].
  split; [reflexivity|].
  assert (builders w1 !! self = Some b) as Hb1 by (by rewrite Hbs).
  assert (cpu_outputs w1 !! fresh (dom (cpu_outputs w))
          = Some (CpuOut.make (Some (fresh (dom (cpu_indexes w)))) (Some m)
                    false)) as Hb2 by (by rewrite Hco, lookup_insert_eq).
  rewrite (write_new_events _ _ _ _ _ _ _ Hb1 Hb2). simpl.
  by destruct (write_raises _ _ _ _ _).
Qed.

(** X9: [vector_dtype] is not validated.  A builder whose [vector_dtype]
    is [None], an integer or a boolean is treated as FLOAT: its conversion
    builds a standard-family index and its write calls
    [faiss.write_index]. *)
Theorem unvalidated_dtype_is_treated_as_float
    (faiss : faiss_env) (self gpu_out cpu_out : loc) (path : string)
    (w : world) (b : FaissIndexHNSWCagraBuilder) (o : CpuOut.t) :
  builders w !! self = Some b →
  (vector_dtype b = VNone
   ∨ (∃ z, vector_dtype b = VInt z)
   ∨ (∃ x, vector_dtype b = VBool x)) →
  cpu_outputs w !! cpu_out = Some o →
  (∀ bundle w',
     convert_gpu_to_cpu_index faiss self gpu_out w = (Ok bundle, w') →
     ∃ (c : loc) (m : option loc) (i : IndexHNSWCagra.t),
       cpu_outputs w' !! bundle = Some (CpuOut.make (Some c) m false)
       ∧ cpu_indexes w' !! c = Some i
       ∧ IndexHNSWCagra.index_family i = StandardFamily)
  ∧ writer_calls
      (new_events w (write_cpu_index faiss self cpu_out path w).2)
    = [EvWrite StandardFamily (CpuOut.index_id_map o) path].
Proof.
  intros Hb Hd Ho.
  assert (selected_family b = StandardFamily) as Hfam.
  { unfold selected_family.
    destruct Hd as [-> | [[z ->] | [x ->]]]; reflexivity. }
  split.
  - intros bundle w' H. apply convert_Ok in H as (b0 & Hb0 & H).
    assert (b0 = b) as -> by congruence. rewrite Hfam in H.
    destruct H as (b' & o' & g & m & _ & _ & _ & _ & _ & _ & -> & _
                   & Hci & _ & _ & Hco & _).
    eexists _, _, _. rewrite Hci, Hco, !lookup_insert_eq.
    repeat split; reflexivity.
  - rewrite (write_new_events _ _ _ _ _ _ _ Hb Ho), Hfam.
    by destruct (write_raises _ _ _ _ _).
Qed.

(** ** The further properties at concrete inputs *)

Lemma conversion_without_wrapper_raises_witness :
  gpu_outputs (sample_converted FLOAT) !! 5%positive
  = Some (GpuOut.make (Some 9%positive) None true)
  ∧ ∃ e w',
      convert_gpu_to_cpu_index quiet_faiss 1 5 (sample_converted FLOAT)
      = (Raise e, w')
      ∧ relocations (new_events (sample_converted FLOAT) w') = []
      ∧ gpu_outputs w' = gpu_outputs (sample_converted FLOAT)
      ∧ id_maps w' = id_maps (sample_converted FLOAT)
      ∧ cpu_outputs w' = cpu_outputs (sample_converted FLOAT).
Proof.
  assert (gpu_outputs (sample_converted FLOAT) !! 5%positive
          = Some (GpuOut.make (Some 9%positive) None true)) as Hout
    by (vm_compute; reflexivity).
  split; [exact Hout|].
  exact (conversion_without_wrapper_raises quiet_faiss 1 5
           (sample_converted FLOAT) (GpuOut.make (Some 9%positive) None true)
           Hout eq_refl).
Defined.

Lemma second_conversion_raises_witness :
  convert_gpu_to_cpu_index quiet_faiss 1 5 (sample_world FLOAT)
  = (Ok 5%positive, sample_converted FLOAT)
  ∧ ∃ e w2,
      convert_gpu_to_cpu_index quiet_faiss 1 5 (sample_converted FLOAT)
      = (Raise e, w2)
      ∧ gpu_outputs w2 = gpu_outputs (sample_converted FLOAT)
      ∧ id_maps w2 = id_maps (sample_converted FLOAT)
      ∧ cpu_outputs w2 = cpu_outputs (sample_converted FLOAT).
Proof.
  split; [apply sample_conversion_returns|].
  exact (second_conversion_raises quiet_faiss quiet_faiss 1 1 5
           (sample_world FLOAT) (sample_converted FLOAT) 5
           (sample_conversion_returns FLOAT)).
Defined.

Lemma sample_copy_failure :
  convert_gpu_to_cpu_index failing_copy_faiss 1 5 (sample_world FLOAT)
  = (Raise (conversion_failed copy_error), sample_copy_failed).
Proof. vm_compute. reflexivity. Defined.

Lemma early_failure_leaves_bundle_intact_witness :
  convert_gpu_to_cpu_index failing_copy_faiss 1 5 (sample_world FLOAT)
  = (Raise (conversion_failed copy_error), sample_copy_failed)
  ∧ relocations (new_events (sample_world FLOAT) sample_copy_failed) = []
  ∧ gpu_outputs sample_copy_failed = gpu_outputs (sample_world FLOAT)
  ∧ id_maps sample_copy_failed = id_maps (sample_world FLOAT)
  ∧ cpu_outputs sample_copy_failed = cpu_outputs (sample_world FLOAT).
Proof.
  split; [apply sample_copy_failure|].
  assert (relocations (new_events (sample_world FLOAT) sample_copy_failed)
          = []) as Hnone by (vm_compute; reflexivity).
  split; [exact Hnone|].
  exact (early_failure_leaves_bundle_intact failing_copy_faiss 1 5
           (sample_world FLOAT) sample_copy_failed
           (conversion_failed copy_error) sample_copy_failure Hnone).
Defined.

Lemma sample_cleanup_failure :
  convert_gpu_to_cpu_index failing_cleanup_faiss 1 5 (sample_world FLOAT)
  = (Raise (conversion_failed cleanup_error), sample_cleanup_failed).
Proof. vm_compute. reflexivity. Defined.

Lemma late_failure_is_not_rolled_back_witness :
  convert_gpu_to_cpu_index failing_cleanup_faiss 1 5 (sample_world FLOAT)
  = (Raise (conversion_failed cleanup_error), sample_cleanup_failed)
  ∧ EvSetBundleWrapper 5 None
    ∈ new_events (sample_world FLOAT) sample_cleanup_failed
  ∧ ∃ (o : GpuOut.t) (m : loc),
      gpu_outputs (sample_world FLOAT) !! 5%positive = Some o
      ∧ GpuOut.index_id_map o = Some m
      ∧ gpu_outputs sample_cleanup_failed !! 5%positive
        = Some (GpuOut.make (GpuOut.gpu_index o) None (GpuOut.released o))
      ∧ (id_maps sample_cleanup_failed !! m = Some None
         ∨ id_maps sample_cleanup_failed !! m
           = Some (Some (CpuIndex
                           (fresh (dom (cpu_indexes (sample_world FLOAT)))))))
      ∧ cpu_outputs sample_cleanup_failed = cpu_outputs (sample_world FLOAT).
Proof.
  split; [apply sample_cleanup_failure|].
  assert (EvSetBundleWrapper 5 None
          ∈ new_events (sample_world FLOAT) sample_cleanup_failed) as Hin.
  { assert (new_events (sample_world FLOAT) sample_cleanup_failed
            = [EvNewIndex StandardFamily 3; EvCopyTo 9 3;
               EvSetWrapperIndex 7 None; EvSetBundleWrapper 5 None;
               EvSetWrapperIndex 7 (Some (CpuIndex 3));
               EvCleanup (GpuBundle 5)]) as -> by (vm_compute; reflexivity).
    do 3 apply list_elem_of_further. apply list_elem_of_here. }
  split; [exact Hin|].
  exact (late_failure_is_not_rolled_back failing_cleanup_faiss 1 5
           (sample_world FLOAT) sample_cleanup_failed
           (conversion_failed cleanup_error) sample_cleanup_failure Hin).
Defined.

Lemma conversion_touches_only_its_bundle_witness :
  convert_gpu_to_cpu_index quiet_faiss 1 5 (sample_world FLOAT)
  = (Ok 5%positive, sample_converted FLOAT)
  ∧ gpu_outputs (sample_world FLOAT) !! 5%positive
    = Some (GpuOut.make (Some 9%positive) (Some 7%positive) false)
  ∧ id_maps (sample_converted FLOAT) !! 8%positive
    = id_maps (sample_world FLOAT) !! 8%positive
  ∧ files (sample_converted FLOAT) = files (sample_world FLOAT).
Proof.
  split; [apply sample_conversion_returns|]. split; [reflexivity|].
  pose proof (conversion_touches_only_its_bundle quiet_faiss 1 5
                (sample_world FLOAT) (sample_converted FLOAT) 5
                (GpuOut.make (Some 9%positive) (Some 7%positive) false) 7
                (sample_conversion_returns FLOAT) eq_refl eq_refl)
    as (Hmaps & _ & _ & _ & _ & Hfiles).
  split; [|exact Hfiles]. apply Hmaps. discriminate.
Defined.

Lemma cleanup_failure_reported_as_write_failure_witness :
  builders (sample_world FLOAT) !! 1%positive = Some (sample_builder FLOAT)
  ∧ cpu_outputs (sample_world FLOAT) !! 4%positive
    = Some (CpuOut.make (Some 2%positive) (Some 8%positive) false)
  ∧ write_cpu_index failing_cleanup_faiss 1 4 "/tmp/index.faiss"
      (sample_world FLOAT)
    = (Raise (Exc PyException
                ("Unexpected error while writing index to file: "
                 ++ str cleanup_error) (Some cleanup_error)),
       sample_written_unreleased)
  ∧ files sample_written_unreleased !! "/tmp/index.faiss"
    = Some (StandardFamily, Some 8%positive).
Proof.
  split; [reflexivity|]. split; [reflexivity|].
  assert (cpu_cleanup failing_cleanup_faiss 4
            (put_file "/tmp/index.faiss" (StandardFamily, Some 8%positive)
               (log (EvWrite StandardFamily (Some 8%positive)
                       "/tmp/index.faiss") (sample_world FLOAT)))
          = (Raise cleanup_error, sample_written_unreleased)) as Hclean
    by (vm_compute; reflexivity).
  exact (cleanup_failure_reported_as_write_failure failing_cleanup_faiss 1 4
           "/tmp/index.faiss" (sample_world FLOAT) sample_written_unreleased
           (sample_builder FLOAT)
           (CpuOut.make (Some 2%positive) (Some 8%positive) false)
           cleanup_error eq_refl eq_refl eq_refl Hclean).
Defined.

Lemma sample_write_returns :
  write_cpu_index quiet_faiss 1 4 "/tmp/index.faiss" (sample_world BINARY)
  = (Ok (),
     (write_cpu_index quiet_faiss 1 4 "/tmp/index.faiss"
        (sample_world BINARY)).2).
Proof. vm_compute. reflexivity. Defined.

Lemma returned_write_has_written_the_file_witness :
  write_cpu_index quiet_faiss 1 4 "/tmp/index.faiss" (sample_world BINARY)
  = (Ok (),
     (write_cpu_index quiet_faiss 1 4 "/tmp/index.faiss"
        (sample_world BINARY)).2)
  ∧ ∃ (b : FaissIndexHNSWCagraBuilder) (o : CpuOut.t),
      builders (sample_world BINARY) !! 1%positive = Some b
      ∧ cpu_outputs (sample_world BINARY) !! 4%positive = Some o
      ∧ files (write_cpu_index quiet_faiss 1 4 "/tmp/index.faiss"
                 (sample_world BINARY)).2
        = <["/tmp/index.faiss" :=
              (selected_family b, CpuOut.index_id_map o)]>
            (files (sample_world BINARY))
      ∧ new_events (sample_world BINARY)
          (write_cpu_index quiet_faiss 1 4 "/tmp/index.faiss"
             (sample_world BINARY)).2
        = [EvWrite (selected_family b) (CpuOut.index_id_map o)
             "/tmp/index.faiss";
           EvCleanup (CpuBundle 4)].
Proof.
  split; [apply sample_write_returns|].
  exact (returned_write_has_written_the_file quiet_faiss 1 4
           "/tmp/index.faiss" (sample_world BINARY) _ () sample_write_returns).
Defined.

Lemma write_after_conversion_is_consistent_witness :
  convert_gpu_to_cpu_index quiet_faiss 1 5 (sample_world BINARY)
  = (Ok 5%positive, sample_converted BINARY)
  ∧ gpu_outputs (sample_world BINARY) !! 5%positive
    = Some (GpuOut.make (Some 9%positive) (Some 7%positive) false)
  ∧ ∃ (m c : loc) (i : IndexHNSWCagra.t),
      Some 7%positive = Some m
      ∧ id_maps (sample_converted BINARY) !! m = Some (Some (CpuIndex c))
      ∧ cpu_indexes (sample_converted BINARY) !! c = Some i
      ∧ writer_calls
          (new_events (sample_converted BINARY)
             (write_cpu_index quiet_faiss 1 5 "/tmp/index.faiss"
                (sample_converted BINARY)).2)
        = [EvWrite (IndexHNSWCagra.index_family i) (Some m)
             "/tmp/index.faiss"].
Proof.
  split; [apply sample_conversion_returns|]. split; [reflexivity|].
  exact (write_after_conversion_is_consistent quiet_faiss quiet_faiss 1 5
           "/tmp/index.faiss" (sample_world BINARY) (sample_converted BINARY)
           5 (GpuOut.make (Some 9%positive) (Some 7%positive) false)
           (sample_conversion_returns BINARY) eq_refl).
Defined.

Lemma unvalidated_dtype_is_treated_as_float_witness :
  (∃ b, builders untyped_world !! 1%positive = Some b
        ∧ vector_dtype b = VNone)
  ∧ cpu_outputs untyped_world !! 4%positive
    = Some (CpuOut.make (Some 2%positive) (Some 8%positive) false)
  ∧ writer_calls
      (new_events untyped_world
         (write_cpu_index quiet_faiss 1 4 "/tmp/index.faiss"
            untyped_world).2)
    = [EvWrite StandardFamily (Some 8%positive) "/tmp/index.faiss"].
Proof.
  split; [eexists; split; reflexivity|]. split; [reflexivity|].
  exact (proj2 (unvalidated_dtype_is_treated_as_float quiet_faiss 1 5 4
                  "/tmp/index.faiss" untyped_world
                  {| ef_search := VInt 50; ef_construction := VInt 200;
                     base_level_only := VBool false; vector_dtype := VNone |}
                  (CpuOut.make (Some 2%positive) (Some 8%positive) false)
                  eq_refl (or_introl eq_refl) eq_refl)).
Defined.
